(** * doc-images: a shallow embedding of [doc-images.py]

    The script documents image training data stored in TAR archives: every
    (payload, sidecar) pair of an archive becomes one JSON record, every
    archive gets a [_doc.jsonl] side file, and all records are gathered into
    one JSON array.

    Conventions of the embedding.
    - A Python [str] is a [string] whose characters are read as the code
      points below 256; [bytes] is a [list byte].
    - A Python [int] is a [Z].
    - A computation that may raise returns a [result]; the exception classes
      are the ones the script and its libraries raise on the paths modelled.
    - A [dict] is a [gmap]; the record built by [process_image], whose key
      order is what [json.dumps] prints, is an association list.
    - The libraries the script calls (PIL, iscc, ftfy, urllib, json, tarfile,
      the clock) are the fields of [externals]. *)

From Stdlib Require Import ZArith NArith Ascii String Lia.
From Stdlib Require Import DecimalFacts DecimalPos DecimalString.
From Stdlib.Strings Require Import Byte.
From stdpp Require Import base option list gmap strings sorting.

Local Open Scope Z_scope.

(** ** Exceptions and results *)

Inductive exn : Type :=
  | UnidentifiedImageError
  | OSError
  | TypeError
  | ValueError
  | KeyError
  | AssertionError
  | SyntaxError.

Global Instance exn_eq_dec : EqDecision exn.
Proof. solve_decision. Defined.

Inductive result (A : Type) : Type :=
  | Ok (a : A)
  | Raise (e : exn).
Arguments Ok {A} a.
Arguments Raise {A} e.

Global Instance result_ret : MRet result := fun A a => Ok a.
Global Instance result_bind : MBind result := fun A B f m =>
  match m with
  | Ok a => f a
  | Raise e => Raise e
  end.

Global Instance byte_eq_dec : EqDecision byte := Byte.byte_eq_dec.

(** ** Python strings *)

Module Py.

Definition bytes : Type := list byte.

Definition code (c : ascii) : N := N_of_ascii c.

(** [str.isspace] on the code points below 256. *)
Definition isspace (c : ascii) : bool :=
  let n := code c in
  ((9 <=? n) && (n <=? 13) || (28 <=? n) && (n <=? 32)
   || (n =? 133) || (n =? 160))%N.

(** [str.lower] on one code point below 256: the ASCII capitals and the
    Latin-1 capitals (all of 192..222 but the multiplication sign). *)
Definition lower_char (c : ascii) : ascii :=
  let n := code c in
  if ((65 <=? n) && (n <=? 90)
      || (192 <=? n) && (n <=? 222) && negb (n =? 215))%N
  then ascii_of_N (n + 32) else c.

Fixpoint lower (s : string) : string :=
  match s with
  | EmptyString => EmptyString
  | String c t => String (lower_char c) (lower t)
  end.

Fixpoint lstrip (s : string) : string :=
  match s with
  | EmptyString => EmptyString
  | String c t => if isspace c then lstrip t else s
  end.

Definition rstrip (s : string) : string :=
  String.rev (lstrip (String.rev s)).

(** [s.strip()] *)
Definition strip (s : string) : string := rstrip (lstrip s).

(** [s.startswith(p)] *)
Fixpoint startswith (s p : string) : bool :=
  match p, s with
  | EmptyString, _ => true
  | String a p', String b s' => if decide (a = b) then startswith s' p' else false
  | String _ _, EmptyString => false
  end.

(** [s.endswith(p)] *)
Definition endswith (s p : string) : bool :=
  startswith (String.rev s) (String.rev p).

(** [sub in s] *)
Fixpoint contains (sub s : string) : bool :=
  startswith s sub ||
  match s with
  | EmptyString => false
  | String _ t => contains sub t
  end.

(** [s.replace(old, new)] for a non-empty [old]: occurrences are found
    left to right and do not overlap.  [skip] counts the characters of an
    occurrence that are still to be passed over. *)
Fixpoint replace_from (skip : nat) (old new s : string) : string :=
  match s with
  | EmptyString => EmptyString
  | String c t =>
      match skip with
      | S k => replace_from k old new t
      | O =>
          if startswith s old
          then new +:+ replace_from (Nat.pred (String.length old)) old new t
          else String c (replace_from O old new t)
      end
  end.

Definition replace (s old new : string) : string := replace_from O old new s.

(** [sep.join(parts)] *)
Fixpoint join (sep : string) (parts : list string) : string :=
  match parts with
  | [] => ""
  | [p] => p
  | p :: rest => p +:+ sep +:+ join sep rest
  end.

(** What follows the first dot of [r], if it has one. *)
Fixpoint after_dot (r : string) : option string :=
  match r with
  | EmptyString => None
  | String c t => if decide (c = "."%char) then Some t else after_dot t
  end.

(** [s.rsplit(".", maxsplit=2)[0]]: [s] without its last two dot-separated
    segments; what precedes the only dot when [s] has one dot, and all of
    [s] when it has none.  The dots are looked for from the right, that is,
    from the left of the reversed string. *)
Definition rsplit2_head (s : string) : string :=
  match after_dot (String.rev s) with
  | None => s
  | Some r1 =>
      match after_dot r1 with
      | None => String.rev r1
      | Some r2 => String.rev r2
      end
  end.

End Py.

(** ** Images, as PIL presents them *)

(** A decoded image: the format PIL detected ([None] when it detected none),
    what [getexif()] gives (a table from tag number to text, or the exception
    it raises on malformed data) and the pixel data. *)
Record image : Type := Image {
  format : option string;
  getexif : result (gmap Z string);
  raster : list N
}.

(** A value of the record [process_image] builds. *)
Inductive jvalue : Type :=
  | JStr (s : string)
  | JInt (n : Z).

(** The record itself, a [dict] whose keys are printed in insertion order. *)
Definition document : Type := list (string * jvalue).

(** An entry of an archive, a regular file: its name, its modification
    time in whole seconds and its bytes. *)
Record member : Type := Member {
  name : string;
  mtime : Z;
  content : Py.bytes
}.

(** ** The libraries *)

Record externals : Type := Externals {
  (** [PIL.Image.open(io.BytesIO(data), formats=None)] *)
  Image_open : Py.bytes -> result image;
  (** [img.convert("L").resize(ISCC_IMAGE_THUMB_SIZE, PIL.Image.LANCZOS)] *)
  convert_resize : image -> result image;
  (** [iscc.meta_id(title, extra)], a triple *)
  iscc_meta_id : string -> string -> string * string * string;
  iscc_content_id_image : image -> string;
  iscc_data_id : Py.bytes -> string;
  (** [iscc.instance_id(data)], the code and the checksum *)
  iscc_instance_id : Py.bytes -> string * string;
  (** [urlparse(url).netloc] *)
  urlparse_netloc : string -> result string;
  (** [ftfy.fix_text] *)
  fix_text : string -> string;
  (** [int(time.time())], as the call at hand reads it *)
  time_time : Z;
  (** [json.load] of a sidecar, an object whose values are texts *)
  json_load : Py.bytes -> result (gmap string string);
  (** [tarfile.open(filename, "r").getmembers()] on the bytes of the file *)
  getmembers : Py.bytes -> result (list member)
}.

(** ** [get_mime_type] *)

(** The character U+00A1 followed by [ERROR!]. *)
Definition ERROR_MIME : string := String "161"%char "ERROR!".

Definition MIME_TYPES : gmap (option string) string :=
  <[Some "JPEG" := "image/jpeg"]>
  (<[Some "PNG" := "image/png"]>
  (<[Some "WEBP" := "image/webp"]>
  (<[Some "GIF" := "image/gif"]>
  (<[None := ERROR_MIME]> ∅)))).

(** [a + b] where [a] is a [str]: a [TypeError] unless [b] is a [str] too. *)
Definition str_add (a : string) (b : option string) : result string :=
  match b with
  | Some s => Ok (a +:+ s)
  | None => Raise TypeError
  end.

(** [d.get(key, dflt)] *)
Definition dict_get `{Countable K} {V} (d : gmap K V) (key : K) (dflt : V) : V :=
  default dflt (d !! key).

(** The default passed to [.get] is an argument: it is computed before the
    table is looked at. *)
Definition get_mime_type (img : image) : result string :=
  dflt ← str_add "other/" (format img);
  mret (dict_get MIME_TYPES (format img) dflt).

(** ** [get_copyright] *)

Definition COPYRIGHT_TAG : Z := 33432.
Definition ARTIST_TAG : Z := 315.

Section Copyright.
Context (E : externals).

(** The loop over the tags. *)
Fixpoint first_accepted (exif_data : gmap Z string) (tags : list Z)
  : option string :=
  match tags with
  | [] => None
  | tag :: rest =>
      match exif_data !! tag with
      | None => first_accepted exif_data rest
      | Some v =>
          let value := Py.strip v in
          if (String.length value <? 2)%nat || Py.contains "[None]" value
          then first_accepted exif_data rest
          else Some (fix_text E value)
      end
  end.

(** Only [SyntaxError] is handled; an empty table is replaced by [{}],
    which has the same (no) entries. *)
Definition get_copyright (img : image) : result (option string) :=
  match getexif img with
  | Raise SyntaxError => Ok None
  | Raise e => Raise e
  | Ok exif_data => Ok (first_accepted exif_data [COPYRIGHT_TAG; ARTIST_TAG])
  end.

End Copyright.

(** ** [process_image] *)

(** The right-hand side of the assignment to [meta_id, _, _]. *)
Inductive pyvalue : Type :=
  | VTriple (t : string * string * string)
  | VStr (s : string).

(** Unpacking into three targets: a triple gives its components, a string
    its characters when it has exactly three, anything else a [ValueError]. *)
Definition unpack3 (v : pyvalue) : result (string * string * string) :=
  match v with
  | VTriple t => Ok t
  | VStr (String a (String b (String c EmptyString))) =>
      Ok (String a "", String b "", String c "")
  | VStr _ => Raise ValueError
  end.

(** Truth value of a [str]. *)
Definition str_truthy (s : string) : bool :=
  match s with EmptyString => false | String _ _ => true end.

(** [timestamp or dflt] where [timestamp] is an [int] or [None]. *)
Definition int_or (timestamp : option Z) (dflt : Z) : Z :=
  match timestamp with
  | Some t => if decide (t = 0) then dflt else t
  | None => dflt
  end.

(** The handler [except (PIL.UnidentifiedImageError, OSError)]. *)
Definition decode_handled (e : exn) : bool :=
  match e with
  | UnidentifiedImageError | OSError => true
  | _ => false
  end.

Section ProcessImage.
Context (E : externals).

(** The body of the [try]. *)
Definition decode (data : Py.bytes) : result (image * string) :=
  img ← Image_open E data;
  mime_type ← get_mime_type img;
  img ← convert_resize E img;
  mret (img, mime_type).

Definition process_image (data : Py.bytes) (title url : string)
    (timestamp : option Z) : result document :=
  match decode data with
  | Raise e => if decode_handled e then Ok [] else Raise e
  | Ok (img, mime_type) =>
      '(meta_id, _, _) ←
        unpack3 (if str_truthy title
                 then VTriple (iscc_meta_id E title "")
                 else VStr "");
      let content_id := iscc_content_id_image E img in
      let data_id := iscc_data_id E data in
      let '(instance_id, checksum) := iscc_instance_id E data in
      domain ← urlparse_netloc E url;
      let doc :=
        [("domain", JStr domain);
         ("iscc", JStr (Py.join "-" [meta_id; content_id; data_id; instance_id]));
         ("timestamp", JInt (int_or timestamp (time_time E)));
         ("bytes", JInt (Z.of_nat (length data)));
         ("checksum", JStr checksum);
         ("mime-type", JStr mime_type)] in
      cmi ← get_copyright E img;
      match cmi with
      | Some c => mret (doc ++ [("copyright", JStr c)])
      | None => mret doc
      end
  end.

End ProcessImage.

(** ** JSON *)

Module Json.

Definition QUOTE : ascii := "034"%char.
Definition BACKSLASH : ascii := "092"%char.

(** *** [json.dumps], with its default arguments, on a record *)

Definition hex_digit (n : N) : ascii :=
  if (n <? 10)%N then ascii_of_N (48 + n) else ascii_of_N (87 + n).

(** One character of a string, as [ensure_ascii] prints it: the printable
    ASCII characters stand for themselves, but for the quote and the
    backslash; the others have a short escape or are written [\u00XX]. *)
Definition escape_char (c : ascii) : string :=
  let n := Py.code c in
  if decide (c = QUOTE) then String BACKSLASH (String QUOTE "")
  else if decide (c = BACKSLASH) then String BACKSLASH (String BACKSLASH "")
  else if (n =? 10)%N then String BACKSLASH "n"
  else if (n =? 13)%N then String BACKSLASH "r"
  else if (n =? 9)%N then String BACKSLASH "t"
  else if (n =? 8)%N then String BACKSLASH "b"
  else if (n =? 12)%N then String BACKSLASH "f"
  else if ((32 <=? n) && (n <=? 126))%N then String c ""
  else String BACKSLASH
         (String "u" (String "0" (String "0"
            (String (hex_digit (n / 16)) (String (hex_digit (n mod 16)) ""))))).

Fixpoint escape (s : string) : string :=
  match s with
  | EmptyString => EmptyString
  | String c t => escape_char c +:+ escape t
  end.

Definition dumps_str (s : string) : string :=
  String QUOTE (escape s +:+ String QUOTE "").

Definition dumps_int (n : Z) : string :=
  DecimalString.NilZero.string_of_int (Z.to_int n).

Definition dumps_value (v : jvalue) : string :=
  match v with
  | JStr s => dumps_str s
  | JInt n => dumps_int n
  end.

Definition dumps_item (kv : string * jvalue) : string :=
  dumps_str kv.1 +:+ ": " +:+ dumps_value kv.2.

Definition dumps (doc : document) : string :=
  "{" +:+ Py.join ", " (map dumps_item doc) +:+ "}".

(** *** The grammar of RFC 8259 *)

Definition is_ws (c : ascii) : bool :=
  let n := Py.code c in
  ((n =? 32) || (n =? 9) || (n =? 10) || (n =? 13))%N.

Inductive ws : string -> Prop :=
  | ws_nil : ws ""
  | ws_cons c s : is_ws c = true -> ws s -> ws (String c s).

Definition is_digit (c : ascii) : bool :=
  ((48 <=? Py.code c) && (Py.code c <=? 57))%N.

Definition is_hex (c : ascii) : bool :=
  let n := Py.code c in
  is_digit c || ((65 <=? n) && (n <=? 70) || (97 <=? n) && (n <=? 102))%N.

(** One digit or more. *)
Inductive digits : string -> Prop :=
  | digits_one c : is_digit c = true -> digits (String c "")
  | digits_cons c s : is_digit c = true -> digits s -> digits (String c s).

(** A zero, or digits that do not start with a zero. *)
Inductive int_part : string -> Prop :=
  | int_zero : int_part "0"
  | int_digits s : digits s -> String.get 0 s <> Some "0"%char -> int_part s.

Inductive frac_part : string -> Prop :=
  | frac_none : frac_part ""
  | frac_some d : digits d -> frac_part (String "." d).

Inductive exp_part : string -> Prop :=
  | exp_none : exp_part ""
  | exp_some e sg d :
      e = "e"%char \/ e = "E"%char ->
      sg = "" \/ sg = "+" \/ sg = "-" ->
      digits d ->
      exp_part (String e (sg +:+ d)).

Inductive number : string -> Prop :=
  | number_pos i f e :
      int_part i -> frac_part f -> exp_part e -> number (i +:+ f +:+ e)
  | number_neg i f e :
      int_part i -> frac_part f -> exp_part e ->
      number (String "-" (i +:+ f +:+ e)).

Definition is_escape (c : ascii) : bool :=
  bool_decide (c ∈ [QUOTE; BACKSLASH; "/"; "b"; "f"; "n"; "r"; "t"]%char).

(** What stands between the quotes of a string. *)
Inductive chars : string -> Prop :=
  | chars_nil : chars ""
  | chars_plain c s :
      (32 <=? Py.code c)%N = true -> c <> QUOTE -> c <> BACKSLASH ->
      chars s -> chars (String c s)
  | chars_escape c s :
      is_escape c = true -> chars s -> chars (String BACKSLASH (String c s))
  | chars_unicode h1 h2 h3 h4 s :
      is_hex h1 = true -> is_hex h2 = true ->
      is_hex h3 = true -> is_hex h4 = true ->
      chars s ->
      chars (String BACKSLASH
               (String "u" (String h1 (String h2 (String h3 (String h4 s)))))).

Inductive str : string -> Prop :=
  | str_intro s : chars s -> str (String QUOTE (s +:+ String QUOTE "")).

(** [elements n s]: [s] is [n] values, separated by commas, each with
    white space around it; for [n = 0], white space alone.  [members]
    likewise for the [key: value] pairs of an object. *)
Inductive value : string -> Prop :=
  | value_null : value "null"
  | value_true : value "true"
  | value_false : value "false"
  | value_number s : number s -> value s
  | value_str s : str s -> value s
  | value_array n s : elements n s -> value ("[" +:+ s +:+ "]")
  | value_object n s : members n s -> value ("{" +:+ s +:+ "}")
with elements : nat -> string -> Prop :=
  | elements_none w : ws w -> elements 0 w
  | elements_last w1 v w2 :
      ws w1 -> value v -> ws w2 -> elements 1 (w1 +:+ v +:+ w2)
  | elements_more n w1 v w2 rest :
      ws w1 -> value v -> ws w2 -> elements (S n) rest ->
      elements (S (S n)) (w1 +:+ v +:+ w2 +:+ "," +:+ rest)
with members : nat -> string -> Prop :=
  | members_none w : ws w -> members 0 w
  | members_last w1 k w2 w3 v w4 :
      ws w1 -> str k -> ws w2 -> ws w3 -> value v -> ws w4 ->
      members 1 (w1 +:+ k +:+ w2 +:+ ":" +:+ w3 +:+ v +:+ w4)
  | members_more n w1 k w2 w3 v w4 rest :
      ws w1 -> str k -> ws w2 -> ws w3 -> value v -> ws w4 ->
      members (S n) rest ->
      members (S (S n))
        (w1 +:+ k +:+ w2 +:+ ":" +:+ w3 +:+ v +:+ w4 +:+ "," +:+ rest).

(** A JSON text: a value with white space around it. *)
Inductive text : string -> Prop :=
  | text_intro w1 v w2 : ws w1 -> value v -> ws w2 -> text (w1 +:+ v +:+ w2).

Inductive object : string -> Prop :=
  | object_intro n s : members n s -> object ("{" +:+ s +:+ "}").

(** [objects n s]: [elements n s] where every value is an object. *)
Inductive objects : nat -> string -> Prop :=
  | objects_none w : ws w -> objects 0 w
  | objects_last w1 v w2 :
      ws w1 -> object v -> ws w2 -> objects 1 (w1 +:+ v +:+ w2)
  | objects_more n w1 v w2 rest :
      ws w1 -> object v -> ws w2 -> objects (S n) rest ->
      objects (S (S n)) (w1 +:+ v +:+ w2 +:+ "," +:+ rest).

(** A JSON text that is an array of [n] objects. *)
Inductive array_of_objects (n : nat) : string -> Prop :=
  | array_of_objects_intro w1 s w2 :
      ws w1 -> objects n s -> ws w2 ->
      array_of_objects n (w1 +:+ "[" +:+ s +:+ "]" +:+ w2).

(** Newline-delimited JSON: every line is one object, holds no line feed
    and is ended by one. *)
Inductive ndjson : nat -> string -> Prop :=
  | ndjson_nil : ndjson 0 ""
  | ndjson_cons n l rest :
      object l -> Py.contains (String "010"%char "") l = false ->
      ndjson n rest ->
      ndjson (S n) (l +:+ String "010"%char rest).

End Json.

(** ** Files *)

(** The line feed, ["\n"]. *)
Definition LF : string := String "010"%char "".

(** [s.encode()]: UTF-8 of the code points below 256. *)
Definition encode_char (c : ascii) : Py.bytes :=
  let n := Py.code c in
  if (n <? 128)%N then [byte_of_ascii c]
  else [byte_of_ascii (ascii_of_N (192 + n / 64));
        byte_of_ascii (ascii_of_N (128 + n mod 64))].

Fixpoint encode (s : string) : Py.bytes :=
  match s with
  | EmptyString => []
  | String c t => encode_char c ++ encode t
  end.

(** The regular files, by path; the paths are normalised.  A directory is
    there when a file lies in it or below it (an empty directory is not
    represented); the root and the working directory are there always. *)
Abbreviation filesystem := (gmap string Py.bytes).

(** [os.path.isfile] *)
Definition isfile (fs : filesystem) (path : string) : bool :=
  bool_decide (is_Some (fs !! path)).

(** Some file's path starts with [prefix]. *)
Definition below (fs : filesystem) (prefix : string) : bool :=
  existsb (fun entry : string * Py.bytes => Py.startswith entry.1 prefix)
          (map_to_list fs).

(** [os.path.isdir], for a path without a final slash. *)
Definition isdir (fs : filesystem) (path : string) : bool :=
  below fs (path +:+ "/").

(** A reversed path from its first slash on. *)
Fixpoint from_slash (r : string) : string :=
  match r with
  | EmptyString => EmptyString
  | String c t => if decide (c = "/"%char) then r else from_slash t
  end.

(** The directory a path lies in, with its final slash: the path up to its
    last slash, empty for a bare name. *)
Definition parent (path : string) : string :=
  String.rev (from_slash (String.rev path)).

(** [open(path, "w")] does not raise: [path] names something in a directory
    that is there and is not a directory itself.  Otherwise Python raises
    [FileNotFoundError], [NotADirectoryError] or [IsADirectoryError], all
    of them [OSError]s. *)
Definition writable (fs : filesystem) (path : string) : bool :=
  negb (bool_decide (parent path = path))
  && (bool_decide (parent path = "") || bool_decide (parent path = "/")
      || below fs (parent path))
  && negb (isdir fs path).

(** [open(path, "w")] followed by the writing of [bs]. *)
Definition write_file (fs : filesystem) (path : string) (bs : Py.bytes)
  : result filesystem :=
  if writable fs path then Ok (<[path := bs]> fs) else Raise OSError.

(** An open binary file: what it holds and where the next write goes. *)
Record file : Type := File {
  written : Py.bytes;
  position : nat
}.

(** [f.write(bs)]: overwrites from the position on, extends the file where
    needed (a gap left by a seek past the end is zero-filled). *)
Definition write (f : file) (bs : Py.bytes) : file :=
  let before := take (position f) (written f) in
  let gap := replicate (position f - length (written f))%nat x00 in
  let after := drop (position f + length bs)%nat (written f) in
  File (before ++ gap ++ bs ++ after) (position f + length bs)%nat.

(** [f.writelines(chunks)] *)
Definition writelines (f : file) (chunks : list Py.bytes) : file :=
  foldl write f chunks.

(** [f.seek(offset, os.SEEK_CUR)]: a position before the start of the file
    is refused. *)
Definition seek_cur (f : file) (offset : Z) : result file :=
  let p := Z.of_nat (position f) + offset in
  if p <? 0 then Raise OSError
  else Ok (File (written f) (Z.to_nat p)).

(** ** [process_tar] *)

(** The loop's variables. *)
Record scan_state : Type := ScanState {
  cache : gmap string Py.bytes;
  lines : list string
}.

(** [filename.replace(".tar", "_doc.jsonl")] *)
Definition doc_path (filename : string) : string :=
  Py.replace filename ".tar" "_doc.jsonl".

(** [meta["url"]] *)
Definition dict_item {V} (d : gmap string V) (key : string) : result V :=
  match d !! key with
  | Some v => Ok v
  | None => Raise KeyError
  end.

Section ProcessTar.
Context (E : externals).

Definition pairing_key (m : member) : string :=
  Py.rsplit2_head (Py.lower (name m)).

Definition is_payload (m : member) : bool :=
  Py.endswith (Py.lower (name m)) ".jpg".

Definition is_sidecar (m : member) : bool :=
  Py.endswith (Py.lower (name m)) ".json".

(** The second [if] of the loop body, entered on a sidecar entry. *)
Definition scan_sidecar (st : scan_state) (m : member) : result scan_state :=
  let key := pairing_key m in
  match cache st !! key with
  | None => Raise AssertionError
  | Some data =>
      let cache' := delete key (cache st) in
      meta ← json_load E (content m);
      let title := dict_get meta "caption" "" in
      url ← dict_item meta "url";
      doc ← process_image E data title url (Some (mtime m));
      if (0 <? length doc)%nat
      then mret (ScanState cache' (lines st ++ [Json.dumps doc]))
      else mret (ScanState cache' (lines st))
  end.

(** One turn of the loop over the entries. *)
Definition scan_member (st : scan_state) (m : member) : result scan_state :=
  let st1 :=
    if is_payload m
    then ScanState (<[pairing_key m := content m]> (cache st)) (lines st)
    else st in
  if is_sidecar m then scan_sidecar st1 m else Ok st1.

(** The loop. *)
Fixpoint scan (st : scan_state) (ms : list member) : result scan_state :=
  match ms with
  | [] => Ok st
  | m :: rest => st' ← scan_member st m; scan st' rest
  end.

(** [open(filename)] for reading *)
Definition read_file (fs : filesystem) (filename : string) : result Py.bytes :=
  match fs !! filename with
  | Some bs => Ok bs
  | None => Raise OSError
  end.

(** What is written to the side file. *)
Definition jsonl (ls : list string) : Py.bytes :=
  encode (String.concat "" (map (fun l => l +:+ LF) ls)).

(** [process_tar], run in a worker of the pool: the file system after the
    call and what the call returns or raises. *)
Definition process_tar (fs : filesystem) (filename : string)
  : filesystem * result (list string) :=
  if isfile fs (doc_path filename) then (fs, Ok [])
  else
    match (archive ← read_file fs filename;
           members ← getmembers E archive;
           scan (ScanState ∅ []) members) with
    | Raise e => (fs, Raise e)
    | Ok st =>
        match write_file fs (doc_path filename) (jsonl (lines st)) with
        | Raise e => (fs, Raise e)
        | Ok fs' => (fs', Ok (lines st))
        end
    end.

End ProcessTar.

(** ** [main] *)

(** The bytes of a file, read as text one character per byte. *)
Definition as_text (bs : Py.bytes) : string :=
  string_of_list_ascii (map ascii_of_byte bs).

(** One record of the manifest: [f"  {ln},\n".encode()]. *)
Definition manifest_line (ln : string) : Py.bytes :=
  encode ("  " +:+ ln +:+ "," +:+ LF).

(** The file after the loop over the results, before the [seek]. *)
Definition manifest_body (results : list (list string)) : file :=
  foldl (fun f ls => writelines f (map manifest_line ls))
        (write (File [] 0) (encode ("[" +:+ LF)))
        results.

(** Lines 193 to 199: the file as it is closed. *)
Definition write_manifest (results : list (list string)) : result file :=
  f ← seek_cur (manifest_body results) (-2);
  mret (write f (encode (LF +:+ "]"))).

(** [out_file or dflt] *)
Definition str_or (out_file : option string) (dflt : string) : string :=
  match out_file with
  | Some (String c t) => String c t
  | _ => dflt
  end.

(** What is left of [s] once the prefix [p] is taken away. *)
Fixpoint remove_prefix (p s : string) : option string :=
  match p, s with
  | EmptyString, _ => Some s
  | String a p', String b s' =>
      if decide (a = b) then remove_prefix p' s' else None
  | String _ _, EmptyString => None
  end.

(** A path up to its first slash. *)
Fixpoint first_segment (s : string) : string :=
  match s with
  | EmptyString => EmptyString
  | String c t =>
      if decide (c = "/"%char) then "" else String c (first_segment t)
  end.

(** The entry of the directory [path] that a file lies in or is: the name
    of the file when it lies in [path] itself, the name of the directory of
    [path] it lies below otherwise. *)
Definition entry_of (path file : string) : option string :=
  rest ← remove_prefix (path +:+ "/") file;
  match first_segment rest with
  | EmptyString => None
  | String c t => Some (String c t)
  end.

(** [os.listdir(path)], for a [path] without a final slash: the names of
    the files and of the directories in [path], each once, in no order to
    speak of. *)
Definition listdir (fs : filesystem) (path : string) : list string :=
  elements (list_to_set (C := gset string)
              (omap (fun entry : string * Py.bytes => entry_of path entry.1)
                    (map_to_list fs))).

Section Main.
Context (E : externals).
(** The order in which the pool hands back the tasks it was given
    ([imap_unordered]). *)
Context (completion : list string -> list string).

(** The pool: the tasks are run one after the other in the order in which
    they complete, and the first exception ends the run. *)
Fixpoint run_pool (fs : filesystem) (tasks : list string)
  : filesystem * result (list (list string)) :=
  match tasks with
  | [] => (fs, Ok [])
  | t :: rest =>
      match process_tar E fs t with
      | (fs', Raise e) => (fs', Raise e)
      | (fs', Ok r) =>
          match run_pool fs' rest with
          | (fs'', Raise e) => (fs'', Raise e)
          | (fs'', Ok rs) => (fs'', Ok (r :: rs))
          end
      end
  end.

(** [sorted([os.path.join(path, f) for f in os.listdir(path)
    if f.endswith(".tar")])], for a [path] that does not end in a slash. *)
Definition tar_files (fs : filesystem) (path : string) : list string :=
  merge_sort String.le
    (map (fun f => path +:+ "/" +:+ f)
         (List.filter (fun f => Py.endswith f ".tar") (listdir fs path))).

(** [main], for a [path] that is absolute and normalised already.
    [os.listdir] raises on a path that is not a directory. *)
Definition main (fs : filesystem) (path : string) (out_file : option string)
  : filesystem * result unit :=
  if isdir fs path then
    let filenames := tar_files fs path in
    if (0 <? length filenames)%nat then
      match run_pool fs (completion filenames) with
      | (fs', Raise e) => (fs', Raise e)
      | (fs', Ok results) =>
          let out := str_or out_file (path +:+ ".json") in
          if writable fs' out then
            match write_manifest results with
            | Ok f => (<[out := written f]> fs', Ok tt)
            | Raise e => (<[out := written (manifest_body results)]> fs', Raise e)
            end
          else (fs', Raise OSError)
      end
    else (fs, Raise AssertionError)
  else (fs, Raise OSError).

End Main.

(** ** The vocabulary of the properties *)

(** [doc[key]] for a key that is there, [None] otherwise. *)
Fixpoint record_get (doc : document) (key : string) : option jvalue :=
  match doc with
  | [] => None
  | (k, v) :: rest => if decide (k = key) then Some v else record_get rest key
  end.

(** The payload does not decode and PIL says so in one of the two ways the
    handler of [process_image] knows: the [try] ends in
    [UnidentifiedImageError] or in [OSError]. *)
Definition undecodable (E : externals) (data : Py.bytes) : Prop :=
  decode E data = Raise UnidentifiedImageError \/ decode E data = Raise OSError.

(** What [process_image] needs to return for a payload, a title and a URL:
    a payload that is skipped as undecodable, or a payload that decodes
    with a title that is not empty, a URL that parses and tags that can be
    read. *)
Definition processable (E : externals) (data : Py.bytes) (title url : string)
  : Prop :=
  undecodable E data \/
  exists img mime_type domain cmi,
    decode E data = Ok (img, mime_type) /\ title <> "" /\
    urlparse_netloc E url = Ok domain /\ get_copyright E img = Ok cmi.

(** A payload that cannot be decoded, as the specification words it: the
    [try] of [process_image] does not get to its end, whatever the
    exception. *)
Definition not_decoded (E : externals) (data : Py.bytes) : Prop :=
  exists e, decode E data = Raise e.

(** The test of line 100, on a tag's value. *)
Definition rejected (v : string) : bool :=
  (String.length (Py.strip v) <? 2)%nat || Py.contains "[None]" (Py.strip v).

(** The rejection as the specification words it: the value is the
    placeholder, or too short once trimmed. *)
Definition rejected_as_specified (v : string) : bool :=
  bool_decide (v = "[None]") || (String.length (Py.strip v) <? 2)%nat.

(** Replacing the extension, as the specification words it: a final [.tar]
    gives way to [_doc.jsonl] and the rest of the path stays. *)
Definition replace_extension (filename : string) : string :=
  if Py.endswith filename ".tar"
  then String.substring 0 (String.length filename - 4) filename +:+ "_doc.jsonl"
  else filename.

(** The pairing buffer as the specification describes it: [data] is the
    content of a payload entry of [ms] with key [k] whose sidecar has not
    been seen, that is, after which no entry of [ms] is a sidecar of that
    key. *)
Definition awaiting_sidecar (ms : list member) (k : string) (data : Py.bytes)
  : Prop :=
  exists before p after,
    ms = before ++ p :: after /\
    is_payload p = true /\ pairing_key p = k /\ content p = data /\
    Forall (fun m => pairing_key m = k -> is_sidecar m = false) after.

(** The pairing buffer as the loop keeps it, one payload for a key: [data]
    is the content of the last payload entry of [ms] with key [k], and no
    sidecar of that key comes after it; that is, the content of a payload
    entry of [ms] with that key after which no entry of [ms] with that key
    is a payload or a sidecar. *)
Definition unmatched_payload (ms : list member) (k : string) (data : Py.bytes)
  : Prop :=
  exists before p after,
    ms = before ++ p :: after /\
    is_payload p = true /\ pairing_key p = k /\ content p = data /\
    Forall (fun m => pairing_key m = k ->
                     is_payload m = false /\ is_sidecar m = false) after.

(** What one entry does to the pairing buffer, whatever else its turn of
    the loop does. *)
Definition buffer_step (c : gmap string Py.bytes) (m : member)
  : gmap string Py.bytes :=
  if is_payload m then <[pairing_key m := content m]> c
  else if is_sidecar m then delete (pairing_key m) c
  else c.

(** The line a record adds to the output: none when the record is empty. *)
Definition record_lines (doc : document) : list string :=
  if (0 <? length doc)%nat then [Json.dumps doc] else [].

(** The characters a value can start with. *)
Definition value_start (c : ascii) : bool :=
  Json.is_digit c ||
  bool_decide (c ∈ ["n"; "t"; "f"; "-"; Json.QUOTE; "["; "{"]%char).

(** Printable ASCII: the characters from the space to the tilde. *)
Definition printable_char (c : ascii) : bool :=
  ((32 <=? Py.code c) && (Py.code c <=? 126))%N.

Fixpoint printable (s : string) : bool :=
  match s with
  | EmptyString => true
  | String c t => printable_char c && printable t
  end.

(** The printable characters and the line feed. *)
Fixpoint printable_lines (s : string) : bool :=
  match s with
  | EmptyString => true
  | String c t => (printable_char c || (Py.code c =? 10)%N) && printable_lines t
  end.

(** A line that [json.dumps] made of a record. *)
Definition is_dump (l : string) : Prop := exists doc, l = Json.dumps doc.

(** The text of the manifest for the lines [ls], the first excepted, each
    on a line of its own. *)
Fixpoint manifest_rows (l : string) (ls : list string) : string :=
  match ls with
  | [] => LF +:+ "  " +:+ l +:+ LF
  | l' :: ls' => LF +:+ "  " +:+ l +:+ "," +:+ manifest_rows l' ls'
  end.

(** The keys of every record, in the order in which they are set. *)
Definition RECORD_KEYS : list string :=
  ["domain"; "iscc"; "timestamp"; "bytes"; "checksum"; "mime-type"].

(** An entry the loop of [process_tar] looks at. *)
Definition relevant (m : member) : bool := is_payload m || is_sidecar m.

(** No dot in the string. *)
Fixpoint dotless (s : string) : bool :=
  match s with
  | EmptyString => true
  | String c t => negb (bool_decide (c = "."%char)) && dotless t
  end.

(** A payload, the sidecar that follows it, and the record that
    [process_tar] gets for the two from [process_image]: the sidecar parses
    and has a URL, and the call (title from the caption, timestamp from the
    sidecar's entry) returns the record. *)
Definition well_paired (E : externals) (t : member * member * document) : Prop :=
  is_payload t.1.1 = true /\ is_sidecar t.1.2 = true /\
  pairing_key t.1.1 = pairing_key t.1.2 /\
  exists meta url,
    json_load E (content t.1.2) = Ok meta /\
    meta !! "url" = Some url /\
    process_image E (content t.1.1) (dict_get meta "caption" "") url
                  (Some (mtime t.1.2)) = Ok t.2.

Definition pair_entries (t : member * member * document) : list member :=
  [t.1.1; t.1.2].

(** ** A small world to run the script in *)

Module Fixture.

Definition JPEG_MAGIC : Py.bytes := [xff; xd8].

(** A payload that decodes, one that decodes to a format without a
    mime type of its own, and one that does not decode. *)
Definition sunset_jpg : Py.bytes := [xff; xd8; x01; x02; x03].
Definition chart_bmp : Py.bytes := [x42; x4d; x00].
Definition not_an_image : Py.bytes := [x00; x01].

Definition starts_with (bs p : Py.bytes) : bool :=
  bool_decide (take (length p) bs = p).

Definition open_image (data : Py.bytes) : result image :=
  if starts_with data JPEG_MAGIC then Ok (Image (Some "JPEG") (Ok ∅) [])
  else if starts_with data [x42; x4d] then Ok (Image (Some "BMP") (Ok ∅) [])
  else Raise UnidentifiedImageError.

(** A converted image has no format any more. *)
Definition to_thumbnail (img : image) : result image :=
  Ok (Image None (getexif img) (raster img)).

Fixpoint until_slash (s : string) : string :=
  match s with
  | EmptyString => EmptyString
  | String c t => if decide (c = "/"%char) then "" else String c (until_slash t)
  end.

(** The network location of [scheme://netloc/path]. *)
Fixpoint netloc (s : string) : string :=
  match s with
  | String "/" (String "/" t) => until_slash t
  | String _ t => netloc t
  | EmptyString => ""
  end.

Definition sunset_json : Py.bytes := [x01].
Definition untitled_json : Py.bytes := [x02].

(** The two sidecars this world knows: one with a caption, one without. *)
Definition load_sidecar (bs : Py.bytes) : result (gmap string string) :=
  if decide (bs = sunset_json)
  then Ok (<["url" := "https://example.com/a.jpg"]> (<["caption" := "Sunset"]> ∅))
  else if decide (bs = untitled_json)
  then Ok (<["url" := "https://example.com/b.jpg"]> ∅)
  else Raise ValueError.

Definition payload : member := Member "0001.jpg" 1690000000 sunset_jpg.
Definition sidecar : member := Member "0001.json" 1690000000 sunset_json.
Definition broken_payload : member := Member "0002.jpg" 1690000001 not_an_image.
Definition broken_sidecar : member := Member "0002.json" 1690000001 sunset_json.

(** The archives this world knows, by their bytes. *)
Definition list_members (archive : Py.bytes) : result (list member) :=
  match archive with
  | [x01] => Ok [payload; sidecar]
  | [x02] => Ok [sidecar; payload]
  | [x03] => Ok [payload; sidecar; sidecar]
  | [x04] => Ok [broken_payload; broken_sidecar; payload; sidecar]
  | [x05] => Ok []
  | _ => Raise OSError
  end.

Definition world : externals := {|
  Image_open := open_image;
  convert_resize := to_thumbnail;
  iscc_meta_id := fun title extra => ("CC" +:+ title, title, extra);
  iscc_content_id_image := fun _ => "CY";
  iscc_data_id := fun _ => "CD";
  iscc_instance_id := fun _ => ("CR", "c0ffee");
  urlparse_netloc := fun url => Ok (netloc url);
  fix_text := fun s => s;
  time_time := 1700000000;
  json_load := load_sidecar;
  getmembers := list_members
|}.

(** The record of [payload] and [sidecar], and a directory that holds
    one archive with the two, sidecar first. *)
Definition sunset_record : document :=
  [("domain", JStr "example.com"); ("iscc", JStr "CCSunset-CY-CD-CR");
   ("timestamp", JInt 1690000000); ("bytes", JInt 5);
   ("checksum", JStr "c0ffee"); ("mime-type", JStr "image/jpeg")].

Definition sidecar_first : filesystem := {[ "/d/0.tar" := [x02] ]}.
Definition payload_first : filesystem := {[ "/d/0.tar" := [x01] ]}.

(** A directory of three archives: one record, none, and one record
    after a payload that does not decode. *)
Definition corpus : filesystem :=
  <["/d/0.tar" := [x01]]> (<["/d/1.tar" := [x05]]> {[ "/d/2.tar" := [x04] ]}).

(** An image with the given tags. *)
Definition tagged (tags : gmap Z string) : image := Image None (Ok tags) [].

End Fixture.

(** ** The same world with some awkward inputs *)

Module Edge.

(** A payload in whose image no format is detected, and one whose embedded
    metadata is malformed. *)
Definition formatless : Py.bytes := [x00; xff].
Definition scratched_jpg : Py.bytes := [xff; xd8; xee].

Definition open_image (data : Py.bytes) : result image :=
  if decide (data = formatless) then Ok (Image None (Ok ∅) [])
  else if decide (data = scratched_jpg)
       then Ok (Image (Some "JPEG") (Raise SyntaxError) [])
       else Fixture.open_image data.

(** A sidecar with a caption and no URL. *)
Definition nameless_json : Py.bytes := [x03].

Definition load_sidecar (bs : Py.bytes) : result (gmap string string) :=
  if decide (bs = nameless_json) then Ok (<["caption" := "Sunset"]> ∅)
  else Fixture.load_sidecar bs.

Definition readme : member := Member "README.txt" 1690000002 [].
Definition nameless_sidecar : member :=
  Member "0001.json" 1690000000 nameless_json.

(** The same sidecar for the payload that does not decode. *)
Definition broken_nameless_sidecar : member :=
  Member "0002.json" 1690000001 nameless_json.

(** A sidecar with a URL and no caption. *)
Definition untitled_sidecar : member :=
  Member "0001.json" 1690000000 Fixture.untitled_json.

(** Two payloads that share their key. *)
Definition twins : list member :=
  [Member "img.1.jpg" 1690000000 Fixture.sunset_jpg;
   Member "img.2.jpg" 1690000000 Fixture.chart_bmp].

(** More archives: payloads without a sidecar, a payload and a sidecar
    without a caption, a payload and a sidecar without a URL in the two
    orders, and a payload that does not decode with a sidecar without a
    URL, before a pair that is in order. *)
Definition list_members (archive : Py.bytes) : result (list member) :=
  match archive with
  | [x06] => Ok [Fixture.payload; readme; Fixture.broken_payload]
  | [x08] => Ok [Fixture.payload; untitled_sidecar]
  | [x09] => Ok [nameless_sidecar; Fixture.payload]
  | [x0a] => Ok [Fixture.payload; nameless_sidecar]
  | [x0b] => Ok [Fixture.broken_payload; broken_nameless_sidecar;
                 Fixture.payload; Fixture.sidecar]
  | _ => Fixture.list_members archive
  end.

Definition world : externals := {|
  Image_open := open_image;
  convert_resize := Fixture.to_thumbnail;
  iscc_meta_id := iscc_meta_id Fixture.world;
  iscc_content_id_image := iscc_content_id_image Fixture.world;
  iscc_data_id := iscc_data_id Fixture.world;
  iscc_instance_id := iscc_instance_id Fixture.world;
  urlparse_netloc := urlparse_netloc Fixture.world;
  fix_text := fix_text Fixture.world;
  time_time := time_time Fixture.world;
  json_load := load_sidecar;
  getmembers := list_members
|}.

Definition only_payloads : filesystem := {[ "/d/6.tar" := [x06] ]}.
Definition no_archive : filesystem := {[ "/d/notes.txt" := [x01] ]}.
Definition without_caption : filesystem := {[ "/d/8.tar" := [x08] ]}.
Definition without_url_sidecar_first : filesystem := {[ "/d/9.tar" := [x09] ]}.
Definition broken_without_url : filesystem := {[ "/d/b.tar" := [x0b] ]}.
Definition nested : filesystem := {[ "/data/cc3m.tar.d/00000.tar" := [x01] ]}.
Definition without_url_payload_first : filesystem := {[ "/d/9.tar" := [x0a] ]}.

(** A payload on which PIL gives up with an exception of another class
    than the two that [process_image] handles. *)
Definition oversized_png : Py.bytes := [x89; x50].

Definition open_strictly (data : Py.bytes) : result image :=
  if decide (data = oversized_png) then Raise ValueError else open_image data.

Definition strict_world : externals := {|
  Image_open := open_strictly;
  convert_resize := Fixture.to_thumbnail;
  iscc_meta_id := iscc_meta_id Fixture.world;
  iscc_content_id_image := iscc_content_id_image Fixture.world;
  iscc_data_id := iscc_data_id Fixture.world;
  iscc_instance_id := iscc_instance_id Fixture.world;
  urlparse_netloc := urlparse_netloc Fixture.world;
  fix_text := fix_text Fixture.world;
  time_time := time_time Fixture.world;
  json_load := load_sidecar;
  getmembers := list_members
|}.

End Edge.

(** * Properties *)

(** ** The result monad *)

Lemma bind_Ok {A B} (a : A) (k : A -> result B) : (Ok a ≫= k) = k a.
Proof. reflexivity. Qed.

Lemma bind_Raise {A B} (e : exn) (k : A -> result B) : (Raise e ≫= k) = Raise e.
Proof. reflexivity. Qed.

Lemma bind_Ok_inv {A B} (m : result A) (k : A -> result B) (b : B) :
  (m ≫= k) = Ok b -> exists a, m = Ok a /\ k a = Ok b.
Proof. destruct m as [a|e]; [eauto|discriminate]. Qed.

(** ** [get_mime_type] *)

Lemma MIME_TYPES_other (f : string) :
  f <> "JPEG" -> f <> "PNG" -> f <> "WEBP" -> f <> "GIF" ->
  MIME_TYPES !! Some f = None.
Proof.
  intros. unfold MIME_TYPES.
  do 5 (rewrite lookup_insert_ne by congruence). apply lookup_empty.
Qed.

(** On a detected format the default is a string and the table decides. *)
Lemma get_mime_type_lookup
    (f : string) (exif : result (gmap Z string)) (px : list N) :
  get_mime_type (Image (Some f) exif px) =
  Ok (dict_get MIME_TYPES (Some f) ("other/" +:+ f)).
Proof. reflexivity. Qed.

(** C3, as amended: on a detected format [get_mime_type] does not raise; it
    maps JPEG, PNG, WEBP and GIF to their [image/...] types and any other
    format string [f] to [other/f], with [f] in the case PIL gave it. *)
Theorem get_mime_type_detected
    (f : string) (exif : result (gmap Z string)) (px : list N) :
  get_mime_type (Image (Some f) exif px) =
  Ok (if decide (f = "JPEG") then "image/jpeg"
      else if decide (f = "PNG") then "image/png"
      else if decide (f = "WEBP") then "image/webp"
      else if decide (f = "GIF") then "image/gif"
      else "other/" +:+ f).
Proof.
  rewrite get_mime_type_lookup. unfold dict_get. f_equal.
  repeat case_decide; subst; try reflexivity.
  by rewrite MIME_TYPES_other.
Qed.

(** C3, as stated, fails: a format outside the table keeps its capitals. *)
Lemma get_mime_type_keeps_case :
  get_mime_type (Image (Some "BMP") (Ok ∅) []) = Ok "other/BMP" /\
  "other/BMP" <> "other/" +:+ Py.lower "BMP".
Proof. split; [reflexivity | discriminate]. Qed.

(** X1: the [None] entry of the table is never reached: the default passed to
    [.get] is computed first, and adding [None] to a string raises. *)
Lemma get_mime_type_undetected (exif : result (gmap Z string)) (px : list N) :
  get_mime_type (Image None exif px) = Raise TypeError.
Proof. reflexivity. Qed.

(** ** [get_copyright] *)

Section CopyrightFacts.
Context (E : externals).

Lemma first_accepted_cons (tags : gmap Z string) (tag : Z) (rest : list Z) :
  first_accepted E tags (tag :: rest) =
  match tags !! tag with
  | Some v =>
      if rejected v then first_accepted E tags rest
      else Some (fix_text E (Py.strip v))
  | None => first_accepted E tags rest
  end.
Proof. reflexivity. Qed.

(** C9, as amended: [get_copyright] returns nothing when every candidate
    (the value of the copyright tag, the value of the artist tag) has a
    trimmed length under 2 or contains the placeholder [[None]];
    otherwise it returns the first accepted candidate, trimmed and passed
    through [fix_text], the copyright tag before the artist tag. *)
Theorem get_copyright_first_accepted (img : image) (tags : gmap Z string) :
  getexif img = Ok tags ->
  ((forall v, tags !! COPYRIGHT_TAG = Some v \/ tags !! ARTIST_TAG = Some v ->
              rejected v = true) ->
   get_copyright E img = Ok None) /\
  (forall v, tags !! COPYRIGHT_TAG = Some v -> rejected v = false ->
             get_copyright E img = Ok (Some (fix_text E (Py.strip v)))) /\
  (forall v, tags !! COPYRIGHT_TAG = None \/
             (exists w, tags !! COPYRIGHT_TAG = Some w /\ rejected w = true) ->
             tags !! ARTIST_TAG = Some v -> rejected v = false ->
             get_copyright E img = Ok (Some (fix_text E (Py.strip v)))).
Proof.
  intros Hexif. unfold get_copyright. rewrite Hexif.
  rewrite !first_accepted_cons. cbn [first_accepted].
  split; [|split].
  - intros Hall.
    destruct (tags !! COPYRIGHT_TAG) as [c|] eqn:Hc;
      destruct (tags !! ARTIST_TAG) as [a|] eqn:Ha;
      repeat match goal with
      | |- context [rejected ?v] => rewrite (Hall v) by auto
      end; reflexivity.
  - intros v -> ->. reflexivity.
  - intros v [-> | (w & -> & ->)] -> ->; reflexivity.
Qed.

End CopyrightFacts.

(** C9, as stated, fails: a value that holds the placeholder among other
    text is neither the placeholder nor short, and is rejected all the same. *)
Lemma placeholder_inside_is_rejected :
  rejected_as_specified "by [None]" = false /\
  get_copyright Fixture.world
    (Fixture.tagged {[ COPYRIGHT_TAG := "by [None]" ]}) = Ok None.
Proof. split; reflexivity. Qed.

Lemma get_copyright_first_accepted_witness :
  get_copyright Fixture.world
    (Fixture.tagged (<[COPYRIGHT_TAG := "[None]"]> {[ ARTIST_TAG := " Jo " ]}))
  = Ok (Some "Jo").
Proof.
  refine (proj2 (proj2 (get_copyright_first_accepted Fixture.world
            (Fixture.tagged (<[COPYRIGHT_TAG := "[None]"]> {[ ARTIST_TAG := " Jo " ]}))
            (<[COPYRIGHT_TAG := "[None]"]> {[ ARTIST_TAG := " Jo " ]}) eq_refl))
          " Jo " _ _ _).
  - right. exists "[None]". split; reflexivity.
  - reflexivity.
  - reflexivity.
Defined.

(** ** [process_image] *)

Section ProcessImageFacts.
Context (E : externals).

(** C1 (the code departs from it): with a payload that decodes and an
    empty title, [process_image] does not return a record; unpacking the
    empty string into three names raises [ValueError]. *)
Theorem process_image_empty_title_raises
    (data : Py.bytes) (url : string) (timestamp : option Z)
    (img : image) (mime_type : string) :
  decode E data = Ok (img, mime_type) ->
  process_image E data "" url timestamp = Raise ValueError.
Proof. intros Hdec. unfold process_image. rewrite Hdec. reflexivity. Qed.

(** With a title that is not empty the first component of the triple is
    taken. *)
Lemma unpack3_titled (title : string) :
  title <> "" ->
  unpack3 (if str_truthy title then VTriple (iscc_meta_id E title "") else VStr "")
  = Ok (iscc_meta_id E title "").
Proof. destruct title; [done | reflexivity]. Qed.

(** The timestamp of every record [process_image] returns. *)
Lemma process_image_timestamp
    (data : Py.bytes) (title url : string) (timestamp : option Z)
    (img : image) (mime_type : string) (doc : document) :
  decode E data = Ok (img, mime_type) ->
  process_image E data title url timestamp = Ok doc ->
  record_get doc "timestamp" = Some (JInt (int_or timestamp (time_time E))).
Proof.
  intros Hdec. unfold process_image. rewrite Hdec.
  intros Hdoc.
  apply bind_Ok_inv in Hdoc as ([[meta_id t] x] & _ & Hdoc).
  destruct (iscc_instance_id E data) as [instance_id checksum].
  apply bind_Ok_inv in Hdoc as (domain & _ & Hdoc).
  apply bind_Ok_inv in Hdoc as (cmi & _ & Hdoc).
  destruct cmi; injection Hdoc as <-; reflexivity.
Qed.

(** C4 (the code departs from it): a record made from a payload that
    decodes, with the timestamp 0 given, carries the reading of the clock
    and not the 0 it was given. *)
Theorem process_image_timestamp_zero
    (data : Py.bytes) (title url : string)
    (img : image) (mime_type : string) (doc : document) :
  decode E data = Ok (img, mime_type) ->
  process_image E data title url (Some 0) = Ok doc ->
  record_get doc "timestamp" = Some (JInt (time_time E)).
Proof. intros Hdec Hdoc. apply (process_image_timestamp _ _ _ _ _ _ _ Hdec Hdoc). Qed.

(** X2: any other timestamp is kept, and the clock is read when none is given. *)
Lemma process_image_timestamp_kept
    (data : Py.bytes) (title url : string) (t : Z)
    (img : image) (mime_type : string) (doc : document) :
  t <> 0 ->
  decode E data = Ok (img, mime_type) ->
  process_image E data title url (Some t) = Ok doc ->
  record_get doc "timestamp" = Some (JInt t).
Proof.
  intros Ht Hdec Hdoc.
  rewrite (process_image_timestamp _ _ _ _ _ _ _ Hdec Hdoc).
  unfold int_or. by rewrite decide_False.
Qed.

Lemma process_image_timestamp_absent
    (data : Py.bytes) (title url : string)
    (img : image) (mime_type : string) (doc : document) :
  decode E data = Ok (img, mime_type) ->
  process_image E data title url None = Ok doc ->
  record_get doc "timestamp" = Some (JInt (time_time E)).
Proof. intros Hdec Hdoc. apply (process_image_timestamp _ _ _ _ _ _ _ Hdec Hdoc). Qed.

(** A payload that does not decode gives the empty record. *)
Lemma process_image_undecodable
    (data : Py.bytes) (title url : string) (timestamp : option Z) :
  undecodable E data -> process_image E data title url timestamp = Ok [].
Proof. intros [H | H]; unfold process_image; rewrite H; reflexivity. Qed.

(** What makes a payload undecodable: [open] fails, or the conversion of
    an image with a format does. *)
Lemma undecodable_open (data : Py.bytes) :
  Image_open E data = Raise UnidentifiedImageError \/
  Image_open E data = Raise OSError ->
  undecodable E data.
Proof. unfold undecodable, decode. intros [-> | ->]; auto. Qed.

Lemma undecodable_convert (data : Py.bytes) (img : image) (f : string) :
  Image_open E data = Ok img -> format img = Some f ->
  convert_resize E img = Raise OSError ->
  undecodable E data.
Proof.
  destruct img as [fmt ex px]. cbn [format]. intros Hopen -> Hconv.
  right. unfold decode. rewrite Hopen, bind_Ok.
  rewrite get_mime_type_lookup, bind_Ok, Hconv. reflexivity.
Qed.

(** The record of a payload that decodes. *)
Lemma process_image_decoded
    (data : Py.bytes) (title url : string) (timestamp : option Z)
    (img : image) (mime_type domain : string) (cmi : option string) :
  decode E data = Ok (img, mime_type) ->
  title <> "" ->
  urlparse_netloc E url = Ok domain ->
  get_copyright E img = Ok cmi ->
  process_image E data title url timestamp =
  Ok ([("domain", JStr domain);
       ("iscc", JStr (Py.join "-" [(iscc_meta_id E title "").1.1;
                                   iscc_content_id_image E img;
                                   iscc_data_id E data;
                                   (iscc_instance_id E data).1]));
       ("timestamp", JInt (int_or timestamp (time_time E)));
       ("bytes", JInt (Z.of_nat (length data)));
       ("checksum", JStr (iscc_instance_id E data).2);
       ("mime-type", JStr mime_type)]
      ++ match cmi with Some c => [("copyright", JStr c)] | None => [] end).
Proof.
  intros Hdec Htitle Hdomain Hcmi. unfold process_image. rewrite Hdec.
  destruct title as [|c title]; [done|]. cbn [str_truthy unpack3].
  rewrite bind_Ok.
  destruct (iscc_meta_id E (String c title) "") as [[meta_id t] x].
  destruct (iscc_instance_id E data) as [instance_id checksum].
  rewrite Hdomain, bind_Ok, Hcmi, bind_Ok.
  destruct cmi; by rewrite ?app_nil_r.
Qed.

Lemma processable_returns
    (data : Py.bytes) (title url : string) (timestamp : option Z) :
  processable E data title url ->
  exists doc, process_image E data title url timestamp = Ok doc.
Proof.
  intros [Hund | (img & mime_type & domain & cmi & Hdec & Htitle & Hdomain & Hcmi)].
  - exists []. by apply process_image_undecodable.
  - eexists. by apply (process_image_decoded data title url timestamp
                         img mime_type domain cmi).
Qed.

End ProcessImageFacts.

Lemma process_image_empty_title_raises_witness :
  process_image Fixture.world Fixture.sunset_jpg ""
    "https://example.com/a.jpg" (Some 1690000000) = Raise ValueError.
Proof.
  apply (process_image_empty_title_raises Fixture.world Fixture.sunset_jpg
           "https://example.com/a.jpg" (Some 1690000000)
           (Image None (Ok ∅) []) "image/jpeg").
  reflexivity.
Defined.

Lemma process_image_timestamp_zero_witness :
  record_get
    [("domain", JStr "example.com"); ("iscc", JStr "CCSunset-CY-CD-CR");
     ("timestamp", JInt 1700000000); ("bytes", JInt 5);
     ("checksum", JStr "c0ffee"); ("mime-type", JStr "image/jpeg")]
    "timestamp"
  = Some (JInt (time_time Fixture.world)).
Proof.
  apply (process_image_timestamp_zero Fixture.world Fixture.sunset_jpg
           "Sunset" "https://example.com/a.jpg"
           (Image None (Ok ∅) []) "image/jpeg");
    reflexivity.
Defined.

(** ** The loop of [process_tar] *)

Lemma sidecar_not_payload (m : member) :
  is_sidecar m = true -> is_payload m = false.
Proof.
  unfold is_sidecar, is_payload, Py.endswith.
  destruct (String.rev (Py.lower (name m))) as [|c r]; [done|].
  cbn. repeat case_decide; subst; done.
Qed.

Section ScanFacts.
Context (E : externals).

Lemma scan_app (st : scan_state) (ms1 ms2 : list member) :
  scan E st (ms1 ++ ms2) = (scan E st ms1 ≫= fun st' => scan E st' ms2).
Proof.
  revert st. induction ms1 as [|m ms1 IH]; intros st; [reflexivity|].
  cbn [scan app]. destruct (scan_member E st m) as [st'|e]; [|reflexivity].
  rewrite !bind_Ok. apply IH.
Qed.

Lemma scan_member_sidecar (st : scan_state) (m : member) :
  is_sidecar m = true -> scan_member E st m = scan_sidecar E st m.
Proof.
  intros Hs. unfold scan_member.
  rewrite (sidecar_not_payload m Hs), Hs. reflexivity.
Qed.

Lemma scan_member_payload (st : scan_state) (m : member) :
  is_payload m = true ->
  scan_member E st m =
  Ok (ScanState (<[pairing_key m := content m]> (cache st)) (lines st)).
Proof.
  intros Hp. unfold scan_member. rewrite Hp.
  destruct (is_sidecar m) eqn:Hs; [|reflexivity].
  apply sidecar_not_payload in Hs. congruence.
Qed.

(** The fatal pairing error: a sidecar whose key is not in the buffer. *)
Lemma scan_sidecar_missing (st : scan_state) (m : member) :
  cache st !! pairing_key m = None -> scan_sidecar E st m = Raise AssertionError.
Proof. intros H. unfold scan_sidecar. by rewrite H. Qed.

(** A sidecar whose payload is in the buffer, with a URL, whose image is
    processed without an exception: the key leaves the buffer and the
    record, unless it is empty, is appended. *)
Lemma scan_sidecar_paired
    (st : scan_state) (m : member) (data : Py.bytes)
    (meta : gmap string string) (url : string) (doc : document) :
  cache st !! pairing_key m = Some data ->
  json_load E (content m) = Ok meta ->
  meta !! "url" = Some url ->
  process_image E data (dict_get meta "caption" "") url (Some (mtime m)) = Ok doc ->
  scan_sidecar E st m =
  Ok (ScanState (delete (pairing_key m) (cache st)) (lines st ++ record_lines doc)).
Proof.
  intros Hc Hmeta Hurl Hdoc. unfold scan_sidecar, dict_item, record_lines.
  rewrite Hc, Hmeta, bind_Ok, Hurl, bind_Ok, Hdoc, bind_Ok.
  destruct (0 <? length doc)%nat; [reflexivity|].
  by rewrite app_nil_r.
Qed.

(** Whatever a turn of the loop does besides, the buffer it leaves is
    [buffer_step] of the buffer it found. *)
Lemma scan_member_cache (st st' : scan_state) (m : member) :
  scan_member E st m = Ok st' -> cache st' = buffer_step (cache st) m.
Proof.
  unfold buffer_step. destruct (is_payload m) eqn:Hp.
  - rewrite scan_member_payload by done. by intros [= <-].
  - destruct (is_sidecar m) eqn:Hs.
    + rewrite scan_member_sidecar by done. unfold scan_sidecar.
      destruct (cache st !! pairing_key m) as [data|]; [|done].
      intros H.
      apply bind_Ok_inv in H as (meta & _ & H).
      apply bind_Ok_inv in H as (url & _ & H).
      apply bind_Ok_inv in H as (doc & _ & H).
      destruct (0 <? length doc)%nat; by injection H as <-.
    + unfold scan_member. rewrite Hp, Hs. by intros [= <-].
Qed.

Lemma scan_cache (st st' : scan_state) (ms : list member) :
  scan E st ms = Ok st' -> cache st' = foldl buffer_step (cache st) ms.
Proof.
  revert st. induction ms as [|m ms IH]; intros st; cbn [scan foldl].
  - by intros [= <-].
  - intros H. apply bind_Ok_inv in H as (st1 & H1 & H).
    rewrite (IH _ H). f_equal. by apply scan_member_cache.
Qed.

End ScanFacts.

(** ** The pairing buffer *)

Lemma unmatched_payload_nil (k : string) (data : Py.bytes) :
  ~ unmatched_payload [] k data.
Proof. intros (before & p & after & H & _). by destruct before. Qed.

(** The unmatched payloads after one more entry: the entry itself when it
    is a payload, and what was unmatched before unless the entry has the
    same key and is a payload or a sidecar. *)
Lemma unmatched_payload_snoc
    (ms : list member) (m : member) (k : string) (data : Py.bytes) :
  unmatched_payload (ms ++ [m]) k data <->
  (is_payload m = true /\ pairing_key m = k /\ content m = data) \/
  (unmatched_payload ms k data /\
   (pairing_key m = k -> is_payload m = false /\ is_sidecar m = false)).
Proof.
  split.
  - intros (before & p & after & Hms & Hp & Hk & Hd & Hafter).
    destruct after as [|a after _] using rev_ind.
    + apply (app_inj_tail ms before m p) in Hms as [_ ->]. by left.
    + rewrite app_comm_cons, app_assoc in Hms.
      apply app_inj_tail in Hms as [-> ->].
      apply Forall_app in Hafter as [Hafter Hm].
      right. split; [by exists before, p, after|].
      by apply Forall_inv in Hm.
  - intros [(Hp & Hk & Hd) | ((before & p & after & -> & Hp & Hk & Hd & Hafter) & Hm)].
    + exists ms, m, []. by repeat split.
    + exists before, p, (after ++ [m]). repeat split; try done.
      * by rewrite <- app_assoc.
      * apply Forall_app. split; [done|]. by apply Forall_singleton.
Qed.

(** The buffer after the entries [ms], from an empty buffer, holds exactly
    the unmatched payloads of [ms]. *)
Lemma buffer_unmatched (ms : list member) (k : string) (data : Py.bytes) :
  foldl buffer_step ∅ ms !! k = Some data <-> unmatched_payload ms k data.
Proof.
  revert k data. induction ms as [|m ms IH] using rev_ind; intros k data.
  - cbn. rewrite lookup_empty. split; [done|]. intros H.
    by apply unmatched_payload_nil in H.
  - rewrite foldl_app, unmatched_payload_snoc. cbn [foldl].
    unfold buffer_step at 1.
    destruct (is_payload m) eqn:Hp.
    + destruct (decide (pairing_key m = k)) as [Hk|Hk].
      * subst k. rewrite lookup_insert_eq. split.
        -- intros [= <-]. by left.
        -- intros [(_ & _ & <-) | (_ & Hm)]; [done|].
           by destruct (Hm eq_refl).
      * rewrite lookup_insert_ne by done. rewrite IH. split.
        -- intros H. right. by split.
        -- intros [(_ & ? & _) | (H & _)]; done.
    + destruct (is_sidecar m) eqn:Hs.
      * destruct (decide (pairing_key m = k)) as [Hk|Hk].
        -- subst k. rewrite lookup_delete_eq. split; [done|].
           intros [(? & _) | (_ & Hm)]; [done|].
           by destruct (Hm eq_refl).
        -- rewrite lookup_delete_ne by done. rewrite IH. split.
           ++ intros H. right. by split.
           ++ intros [(? & _) | (H & _)]; done.
      * rewrite IH. split.
        -- intros H. right. by split.
        -- intros [(? & _) | (H & _)]; done.
Qed.

(** An unmatched payload is an entry of the archive. *)
Lemma unmatched_payload_elem (ms : list member) (k : string) (data : Py.bytes) :
  unmatched_payload ms k data ->
  exists p, p ∈ ms /\ is_payload p = true /\ pairing_key p = k.
Proof.
  intros (before & p & after & -> & Hp & Hk & _).
  exists p. split; [|done]. apply elem_of_app. right. by left.
Qed.

(** After a sidecar of key [k] and entries none of which is a payload of
    key [k], no payload of key [k] is unmatched. *)
Lemma unmatched_payload_after_sidecar
    (before : list member) (side : member) (between : list member)
    (data : Py.bytes) :
  is_sidecar side = true ->
  Forall (fun m => is_payload m = true -> pairing_key m <> pairing_key side)
         between ->
  ~ unmatched_payload (before ++ side :: between) (pairing_key side) data.
Proof.
  intros Hs. induction between as [|m between IH] using rev_ind; intros Hbetween.
  - rewrite (unmatched_payload_snoc before side).
    intros [(Hp & _) | (_ & Hm)].
    + apply sidecar_not_payload in Hs. congruence.
    + destruct (Hm eq_refl). congruence.
  - apply Forall_app in Hbetween as [Hbetween Hm].
    apply Forall_inv in Hm.
    replace (before ++ side :: between ++ [m])
      with ((before ++ side :: between) ++ [m]) by by rewrite <- app_assoc.
    rewrite unmatched_payload_snoc.
    intros [(Hp & Hk & _) | (H & _)].
    + by apply Hm.
    + by apply IH.
Qed.

(** ** [process_tar] *)

Section ProcessTarFacts.
Context (E : externals).

(** An archive without a side file is scanned, and the side file is
    written when the scan has come to its end. *)
Lemma process_tar_fresh
    (fs : filesystem) (filename : string) (archive : Py.bytes)
    (ms : list member) :
  isfile fs (doc_path filename) = false ->
  fs !! filename = Some archive ->
  getmembers E archive = Ok ms ->
  process_tar E fs filename =
  match scan E (ScanState ∅ []) ms with
  | Raise e => (fs, Raise e)
  | Ok st =>
      match write_file fs (doc_path filename) (jsonl (lines st)) with
      | Raise e => (fs, Raise e)
      | Ok fs' => (fs', Ok (lines st))
      end
  end.
Proof.
  intros Hdoc Hfile Hms. unfold process_tar, read_file.
  by rewrite Hdoc, Hfile, bind_Ok, Hms, bind_Ok.
Qed.

Lemma process_tar_scanned
    (fs : filesystem) (filename : string) (archive : Py.bytes)
    (ms : list member) (st : scan_state) :
  isfile fs (doc_path filename) = false ->
  fs !! filename = Some archive ->
  getmembers E archive = Ok ms ->
  scan E (ScanState ∅ []) ms = Ok st ->
  writable fs (doc_path filename) = true ->
  process_tar E fs filename =
  (<[doc_path filename := jsonl (lines st)]> fs, Ok (lines st)).
Proof.
  intros Hdoc Hfile Hms Hscan Hw.
  rewrite (process_tar_fresh fs filename archive ms Hdoc Hfile Hms), Hscan.
  unfold write_file. by rewrite Hw.
Qed.

(** What a call that returns has done: nothing when the side file was
    there, and otherwise the side file holds the lines returned. *)
Lemma process_tar_returned
    (fs fs' : filesystem) (filename : string) (ls : list string) :
  process_tar E fs filename = (fs', Ok ls) ->
  (isfile fs (doc_path filename) = true /\ fs' = fs /\ ls = []) \/
  (isfile fs (doc_path filename) = false /\
   fs' = <[doc_path filename := jsonl ls]> fs /\
   exists archive ms st,
     fs !! filename = Some archive /\ getmembers E archive = Ok ms /\
     scan E (ScanState ∅ []) ms = Ok st /\ lines st = ls).
Proof.
  unfold process_tar, read_file, write_file.
  destruct (isfile fs (doc_path filename)) eqn:Hdoc.
  - intros [= <- <-]. by left.
  - destruct (fs !! filename) as [archive|] eqn:Hfile; [|done].
    rewrite bind_Ok.
    destruct (getmembers E archive) as [ms|e] eqn:Hms; [|done].
    rewrite bind_Ok.
    destruct (scan E (ScanState ∅ []) ms) as [st|e] eqn:Hscan; [|done].
    destruct (writable fs (doc_path filename)); [|done].
    intros [= <- <-]. right. repeat split. by exists archive, ms, st.
Qed.

(** A call that raises leaves the file system as it was. *)
Lemma process_tar_raised
    (fs fs' : filesystem) (filename : string) (e : exn) :
  process_tar E fs filename = (fs', Raise e) -> fs' = fs.
Proof.
  unfold process_tar, write_file.
  destruct (isfile fs (doc_path filename)); [done|].
  destruct (_ ≫= _) as [st|e']; [|by intros [= <- _]].
  destruct (writable fs (doc_path filename)); [done|]. by intros [= <- _].
Qed.

(** C5, as amended: a payload on which decoding raises
    [UnidentifiedImageError] or [OSError] gives the empty record, without an
    exception, whatever the title, the URL and the timestamp; and the
    archive that holds it with its sidecar is processed to its end: the
    pair adds no line, the entries after it are scanned with the key gone
    from the buffer, and [process_tar] writes and returns the lines of the
    other entries. *)
Theorem undecodable_payload_skipped (data : Py.bytes) :
  undecodable E data ->
  (forall title url timestamp,
      process_image E data title url timestamp = Ok []) /\
  (forall fs filename archive pre pay side post st st' meta url,
      isfile fs (doc_path filename) = false ->
      fs !! filename = Some archive ->
      getmembers E archive = Ok (pre ++ pay :: side :: post) ->
      is_payload pay = true -> content pay = data ->
      is_sidecar side = true -> pairing_key side = pairing_key pay ->
      json_load E (content side) = Ok meta ->
      meta !! "url" = Some url ->
      scan E (ScanState ∅ []) pre = Ok st ->
      scan E (ScanState (delete (pairing_key pay) (cache st)) (lines st)) post
      = Ok st' ->
      writable fs (doc_path filename) = true ->
      process_tar E fs filename =
      (<[doc_path filename := jsonl (lines st')]> fs, Ok (lines st'))).
Proof.
  intros Hdata. split.
  - intros. by apply process_image_undecodable.
  - intros fs filename archive pre pay side post st st' meta url
           Hdoc Hfile Hms Hp Hcontent Hs Hk Hmeta Hurl Hpre Hpost Hw.
    apply (process_tar_scanned fs filename archive _ st' Hdoc Hfile Hms);
      [|done].
    rewrite scan_app, Hpre, bind_Ok. cbn [scan].
    rewrite scan_member_payload, bind_Ok by done.
    rewrite scan_member_sidecar by done.
    rewrite (scan_sidecar_paired E _ side data meta url []); cbn [cache lines];
      try done.
    + by rewrite bind_Ok, Hk, delete_insert_eq, app_nil_r.
    + by rewrite Hk, lookup_insert_eq, Hcontent.
    + by apply process_image_undecodable.
Qed.

(** C6, as amended: take an archive in which a sidecar [side] and a payload
    [pay] of the same key follow entries [pre] that are scanned without an
    exception and leave no payload of that key unmatched.  With the sidecar
    first, [process_tar] raises the pairing error and writes nothing.  With
    the payload first, a sidecar that parses and has a URL, and a payload
    that is skipped as undecodable or decodes with a caption that is not
    empty, a URL that parses and tags that can be read, [process_image]
    returns for the pair, the entries after it are scanned with the line
    of the record appended and the buffer as it was, and [process_tar]
    writes and returns the lines. *)
Theorem pairing_order_sensitivity
    (pre : list member) (side pay : member) (post : list member)
    (st : scan_state) :
  is_sidecar side = true ->
  is_payload pay = true ->
  pairing_key pay = pairing_key side ->
  scan E (ScanState ∅ []) pre = Ok st ->
  (forall data, ~ unmatched_payload pre (pairing_key side) data) ->
  (forall fs filename archive,
      isfile fs (doc_path filename) = false ->
      fs !! filename = Some archive ->
      getmembers E archive = Ok (pre ++ side :: pay :: post) ->
      process_tar E fs filename = (fs, Raise AssertionError)) /\
  (forall fs filename archive meta url st',
      isfile fs (doc_path filename) = false ->
      fs !! filename = Some archive ->
      getmembers E archive = Ok (pre ++ pay :: side :: post) ->
      json_load E (content side) = Ok meta ->
      meta !! "url" = Some url ->
      processable E (content pay) (dict_get meta "caption" "") url ->
      exists doc,
        process_image E (content pay) (dict_get meta "caption" "") url
                      (Some (mtime side)) = Ok doc /\
        (scan E (ScanState (cache st) (lines st ++ record_lines doc)) post
         = Ok st' ->
         writable fs (doc_path filename) = true ->
         process_tar E fs filename =
         (<[doc_path filename := jsonl (lines st')]> fs, Ok (lines st')))).
Proof.
  intros Hs Hp Hk Hpre Hnone.
  assert (cache st !! pairing_key side = None) as Hc.
  { destruct (cache st !! pairing_key side) as [data|] eqn:Hc; [|done].
    rewrite (scan_cache E _ _ _ Hpre) in Hc. cbn [cache] in Hc.
    apply buffer_unmatched in Hc. by destruct (Hnone data). }
  split.
  - intros fs filename archive Hdoc Hfile Hms.
    rewrite (process_tar_fresh fs filename archive _ Hdoc Hfile Hms).
    rewrite scan_app, Hpre, bind_Ok. cbn [scan].
    rewrite scan_member_sidecar by done.
    by rewrite scan_sidecar_missing.
  - intros fs filename archive meta url st' Hdoc Hfile Hms Hmeta Hurl Hable.
    destruct (processable_returns E _ _ _ (Some (mtime side)) Hable)
      as [doc Hrun].
    exists doc. split; [done|]. intros Hpost Hw.
    apply (process_tar_scanned fs filename archive _ st' Hdoc Hfile Hms);
      [|done].
    rewrite scan_app, Hpre, bind_Ok. cbn [scan].
    rewrite scan_member_payload, bind_Ok by done.
    rewrite scan_member_sidecar by done.
    rewrite (scan_sidecar_paired E _ side (content pay) meta url doc);
      cbn [cache lines]; try done.
    + by rewrite bind_Ok, Hk, delete_insert_eq, delete_id by done.
    + by rewrite Hk, lookup_insert_eq.
Qed.

(** C7: once [process_tar] has returned for an archive, its side file is
    there; and as long as it is there, [process_tar] on that archive
    changes nothing in the file system and returns the empty list,
    whatever the archive holds and whatever the libraries would do. *)
Theorem process_tar_rerun
    (fs fs1 : filesystem) (filename : string) (ls : list string) :
  process_tar E fs filename = (fs1, Ok ls) ->
  process_tar E fs1 filename = (fs1, Ok []) /\
  (forall (E' : externals) (fs2 : filesystem),
      isfile fs2 (doc_path filename) = isfile fs1 (doc_path filename) ->
      process_tar E' fs2 filename = (fs2, Ok [])).
Proof.
  intros Hrun.
  assert (isfile fs1 (doc_path filename) = true) as Hmark.
  { apply process_tar_returned in Hrun as [(Hdoc & -> & _) | (_ & -> & _)].
    - done.
    - unfold isfile. apply bool_decide_eq_true.
      rewrite lookup_insert_eq. by eexists. }
  split.
  - unfold process_tar. by rewrite Hmark.
  - intros E' fs2 Hsame. unfold process_tar. by rewrite Hsame, Hmark.
Qed.

(** C10, as amended: processing a sidecar takes its key out of the buffer,
    and a payload takes the place of an earlier one of its key; after any
    entries [ms] scanned without an exception the buffer holds, for a key,
    exactly the last payload of [ms] with that key, when no sidecar of that
    key has come after it; and a further sidecar with the key of an earlier
    one, no payload of that key in between, raises the pairing error. *)
Theorem pairing_buffer_invariant (ms : list member) (st : scan_state) :
  scan E (ScanState ∅ []) ms = Ok st ->
  (forall side st',
      is_sidecar side = true -> scan_member E st side = Ok st' ->
      cache st' = delete (pairing_key side) (cache st)) /\
  (forall k data, cache st !! k = Some data <-> unmatched_payload ms k data) /\
  (forall before side1 between side2 rest,
      ms = before ++ side1 :: between ->
      is_sidecar side1 = true -> is_sidecar side2 = true ->
      pairing_key side2 = pairing_key side1 ->
      Forall (fun m => is_payload m = true ->
                       pairing_key m <> pairing_key side1) between ->
      scan E (ScanState ∅ []) (ms ++ side2 :: rest) = Raise AssertionError).
Proof.
  intros Hscan.
  assert (forall k data,
             cache st !! k = Some data <-> unmatched_payload ms k data) as Hinv.
  { intros k data. rewrite (scan_cache E _ _ _ Hscan). apply buffer_unmatched. }
  split; [|split; [done|]].
  - intros side st' Hs Hstep.
    rewrite (scan_member_cache E _ _ _ Hstep). unfold buffer_step.
    by rewrite (sidecar_not_payload side Hs), Hs.
  - intros before side1 between side2 rest -> Hs1 Hs2 Hk Hbetween.
    rewrite scan_app, Hscan, bind_Ok. cbn [scan].
    rewrite scan_member_sidecar by done.
    rewrite scan_sidecar_missing; [done|].
    destruct (cache st !! pairing_key side2) as [data|] eqn:Hc; [|done].
    apply Hinv in Hc. rewrite Hk in Hc.
    by apply unmatched_payload_after_sidecar in Hc.
Qed.

End ProcessTarFacts.

(** C5, as stated, fails: a payload on which PIL raises an exception of
    another class cannot be decoded either, and that exception leaves
    [process_image]; and after a payload that does not decode, a sidecar
    without a URL ends the processing of the archive all the same. *)
Lemma undecodable_payload_may_raise :
  not_decoded Edge.strict_world Edge.oversized_png /\
  process_image Edge.strict_world Edge.oversized_png "Sunset"
    "https://example.com/a.jpg" (Some 1690000000) = Raise ValueError /\
  undecodable Edge.world (content Fixture.broken_payload) /\
  process_tar Edge.world Edge.broken_without_url "/d/b.tar"
  = (Edge.broken_without_url, Raise KeyError).
Proof.
  split; [by exists ValueError|]. split; [reflexivity|].
  split; [by left | reflexivity].
Qed.

Lemma undecodable_payload_skipped_witness :
  process_image Fixture.world Fixture.not_an_image "Sunset"
    "https://example.com/a.jpg" (Some 1690000001) = Ok [] /\
  process_tar Fixture.world Fixture.corpus "/d/2.tar"
  = (<["/d/2_doc.jsonl" := jsonl [Json.dumps Fixture.sunset_record]]>
       Fixture.corpus,
     Ok [Json.dumps Fixture.sunset_record]).
Proof.
  pose proof (undecodable_payload_skipped Fixture.world Fixture.not_an_image
                (or_introl eq_refl)) as [Hrecord Harchive].
  split.
  - apply Hrecord.
  - apply (Harchive Fixture.corpus "/d/2.tar" [x04]
             [] Fixture.broken_payload Fixture.broken_sidecar
             [Fixture.payload; Fixture.sidecar]
             (ScanState ∅ [])
             (ScanState ∅ [Json.dumps Fixture.sunset_record])
             (<["url" := "https://example.com/a.jpg"]> (<["caption" := "Sunset"]> ∅))
             "https://example.com/a.jpg");
      reflexivity.
Defined.

(** C6, as stated, fails: with a sidecar that has no URL the payload-first
    order passes the pairing check and ends in a [KeyError] all the same. *)
Lemma payload_first_without_url_raises :
  process_tar Edge.world Edge.without_url_sidecar_first "/d/9.tar"
  = (Edge.without_url_sidecar_first, Raise AssertionError) /\
  process_tar Edge.world Edge.without_url_payload_first "/d/9.tar"
  = (Edge.without_url_payload_first, Raise KeyError).
Proof. split; reflexivity. Qed.

Lemma pairing_order_sensitivity_witness :
  process_tar Fixture.world Fixture.sidecar_first "/d/0.tar"
  = (Fixture.sidecar_first, Raise AssertionError) /\
  process_tar Fixture.world Fixture.payload_first "/d/0.tar"
  = (<["/d/0_doc.jsonl" := jsonl [Json.dumps Fixture.sunset_record]]>
       Fixture.payload_first,
     Ok [Json.dumps Fixture.sunset_record]).
Proof.
  pose proof (pairing_order_sensitivity Fixture.world
                [] Fixture.sidecar Fixture.payload [] (ScanState ∅ [])
                eq_refl eq_refl eq_refl eq_refl
                (fun data => unmatched_payload_nil _ data)) as [Hfirst Hsecond].
  split.
  - apply (Hfirst Fixture.sidecar_first "/d/0.tar" [x02]); reflexivity.
  - destruct (Hsecond Fixture.payload_first "/d/0.tar" [x01]
                (<["url" := "https://example.com/a.jpg"]> (<["caption" := "Sunset"]> ∅))
                "https://example.com/a.jpg"
                (ScanState ∅ [Json.dumps Fixture.sunset_record])
                eq_refl eq_refl eq_refl eq_refl eq_refl)
      as (doc & Hdoc & Hrun).
    + right. exists (Image None (Ok ∅) []), "image/jpeg", "example.com", None.
      repeat split. discriminate.
    + injection Hdoc as <-. apply Hrun; reflexivity.
Defined.

Lemma process_tar_rerun_witness :
  process_tar Fixture.world
    (<["/d/0_doc.jsonl" := jsonl [Json.dumps Fixture.sunset_record]]>
       Fixture.payload_first)
    "/d/0.tar"
  = (<["/d/0_doc.jsonl" := jsonl [Json.dumps Fixture.sunset_record]]>
       Fixture.payload_first,
     Ok []).
Proof.
  refine (proj1 (process_tar_rerun Fixture.world Fixture.payload_first _
                   "/d/0.tar" [Json.dumps Fixture.sunset_record] _)).
  reflexivity.
Defined.

(** C10, as stated, fails: of two payloads that share their key and have
    no sidecar yet, the buffer holds the second only. *)
Lemma earlier_payload_leaves_buffer :
  awaiting_sidecar Edge.twins "img" Fixture.sunset_jpg /\
  scan Fixture.world (ScanState ∅ []) Edge.twins
  = Ok (ScanState {[ "img" := Fixture.chart_bmp ]} []) /\
  Fixture.sunset_jpg <> Fixture.chart_bmp.
Proof.
  split; [|split; [reflexivity | discriminate]].
  exists [], (Member "img.1.jpg" 1690000000 Fixture.sunset_jpg),
         [Member "img.2.jpg" 1690000000 Fixture.chart_bmp].
  repeat split; try reflexivity.
  apply Forall_singleton. reflexivity.
Qed.

Lemma pairing_buffer_invariant_witness :
  scan Fixture.world (ScanState ∅ [])
    ([Fixture.payload; Fixture.sidecar] ++ [Fixture.sidecar])
  = Raise AssertionError.
Proof.
  refine (proj2 (proj2 (pairing_buffer_invariant Fixture.world
                          [Fixture.payload; Fixture.sidecar]
                          (ScanState ∅ [Json.dumps Fixture.sunset_record]) _))
            [Fixture.payload] Fixture.sidecar [] Fixture.sidecar [] _ _ _ _ _);
    try reflexivity.
  constructor.
Defined.

(** ** The path of the side file *)

(** C8 (the code departs from it): every [.tar] of the path is replaced,
    not only the final one; for an archive in a directory whose name holds
    [.tar] the side file is looked for, and written, in another directory. *)
Theorem doc_path_replaces_every_tar :
  doc_path "/data/cc3m.tar.d/00000.tar" = "/data/cc3m_doc.jsonl.d/00000_doc.jsonl" /\
  replace_extension "/data/cc3m.tar.d/00000.tar" = "/data/cc3m.tar.d/00000_doc.jsonl".
Proof. split; reflexivity. Qed.

(** ** JSON texts *)

Lemma append_cons (c : ascii) (s t : string) :
  String c s +:+ t = String c (s +:+ t).
Proof. reflexivity. Qed.

Lemma append_nil_l (t : string) : "" +:+ t = t.
Proof. reflexivity. Qed.

Lemma digits_start (s : string) :
  Json.digits s -> exists c t, s = String c t /\ Json.is_digit c = true.
Proof. destruct 1; eauto. Qed.

Lemma int_part_start (s : string) :
  Json.int_part s -> exists c t, s = String c t /\ Json.is_digit c = true.
Proof.
  destruct 1 as [|s Hd _]; [by exists "0"%char, ""|]. by apply digits_start.
Qed.

Lemma value_starts (v : string) :
  Json.value v -> exists c t, v = String c t /\ value_start c = true.
Proof.
  destruct 1 as [| | |s Hn|s Hs|n s _|n s _];
    try (eexists _, _; split; [reflexivity|reflexivity]).
  - destruct Hn as [i f e Hi _ _|i f e _ _ _].
    + apply int_part_start in Hi as (c & t & -> & Hc).
      exists c, (t +:+ f +:+ e). split; [reflexivity|].
      unfold value_start. by rewrite Hc.
    + by eexists _, _.
  - destruct Hs as [s _]. by eexists _, _.
Qed.

Lemma ws_start (c : ascii) (s : string) :
  Json.ws (String c s) -> Json.is_ws c = true /\ Json.ws s.
Proof. by inversion 1. Qed.

(** A line feed and a closing bracket are not a JSON text. *)
Lemma closing_bracket_not_json : ~ Json.text (LF +:+ "]").
Proof.
  inversion 1 as [w1 v w2 Hw1 Hv Hw2 Heq].
  apply value_starts in Hv as (c & t & -> & Hc).
  destruct w1 as [|c1 w1]; cbn in Heq.
  - injection Heq as -> _. discriminate.
  - injection Heq as -> Heq. apply ws_start in Hw1 as [_ Hw1].
    destruct w1 as [|c2 w1]; cbn in Heq.
    + injection Heq as -> _. discriminate.
    + injection Heq as -> _. apply ws_start in Hw1 as [? _]. discriminate.
Qed.

(** ** The manifest *)

Lemma manifest_loop_empty (results : list (list string)) (f : file) :
  concat results = [] ->
  foldl (fun f ls => writelines f (map manifest_line ls)) f results = f.
Proof.
  induction results as [|ls results IH]; intros Hnil; [reflexivity|].
  cbn [concat] in Hnil. apply app_eq_nil in Hnil as [-> Hnil].
  cbn [foldl map]. by apply IH.
Qed.

(** C2 (the code departs from it): when the scans yield no record at all,
    the [seek] goes back over the opening bracket, and the file that is
    closed holds a line feed and a closing bracket, which is not a JSON
    text, let alone an array. *)
Theorem manifest_without_records (results : list (list string)) :
  concat results = [] ->
  exists f, write_manifest results = Ok f /\
            as_text (written f) = LF +:+ "]" /\
            ~ Json.text (as_text (written f)).
Proof.
  intros Hnil. exists (File [x0a; x5d] 2).
  unfold write_manifest, manifest_body.
  rewrite manifest_loop_empty by done.
  repeat split. apply closing_bracket_not_json.
Qed.

Lemma manifest_without_records_witness :
  exists f, write_manifest [[]; []; []] = Ok f /\
            as_text (written f) = LF +:+ "]" /\
            ~ Json.text (as_text (written f)).
Proof. apply (manifest_without_records [[]; []; []]). reflexivity. Defined.

(** ** Strings *)

Lemma append_assoc (s t u : string) : (s +:+ t) +:+ u = s +:+ t +:+ u.
Proof. induction s as [|c s IH]; [reflexivity|]. by rewrite !append_cons, IH. Qed.

Lemma append_nil_r (s : string) : s +:+ "" = s.
Proof. induction s as [|c s IH]; [reflexivity|]. by rewrite append_cons, IH. Qed.

Lemma length_append (s t : string) :
  String.length (s +:+ t) = (String.length s + String.length t)%nat.
Proof. induction s as [|c s IH]; [reflexivity|]. rewrite append_cons. cbn. by rewrite IH. Qed.

Lemma substring_append (s t : string) :
  String.substring 0 (String.length s) (s +:+ t) = s.
Proof.
  induction s as [|c s IH]; [by destruct t|].
  rewrite append_cons. cbn. by rewrite IH.
Qed.

Lemma rev_app_append (s t acc : string) :
  String.rev_app (s +:+ t) acc = String.rev_app t (String.rev_app s acc).
Proof.
  revert acc. induction s as [|c s IH]; intros acc; [reflexivity|].
  rewrite append_cons. cbn. apply IH.
Qed.

Lemma rev_append (s t : string) :
  String.rev (s +:+ t) = String.rev_app t (String.rev s).
Proof. apply rev_app_append. Qed.

(** ** The path of the side file, when [.tar] occurs once *)

Lemma startswith_tar_append (c : ascii) (t : string) :
  Py.startswith (String c t) ".tar" = false ->
  Py.startswith (String c t +:+ ".tar") ".tar" = false.
Proof.
  intros H.
  destruct t as [|c1 [|c2 [|c3 t]]];
    rewrite ?append_cons, ?append_nil_l; cbn in *;
    repeat case_decide; subst; try done.
  by destruct t.
Qed.

Lemma replace_final_tar (stem new : string) :
  Py.contains ".tar" stem = false ->
  Py.replace (stem +:+ ".tar") ".tar" new = stem +:+ new.
Proof.
  unfold Py.replace. induction stem as [|c t IH]; intros Hnone.
  - rewrite !append_nil_l. cbn. by rewrite append_nil_r.
  - cbn [Py.contains] in Hnone. apply orb_false_iff in Hnone as [Hhere Hlater].
    apply startswith_tar_append in Hhere.
    rewrite !append_cons in *. cbn [Py.replace_from].
    rewrite Hhere. f_equal. by apply IH.
Qed.

(** X3: when [.tar] occurs in the path as its final suffix only, the side file
    is where replacing the extension puts it. *)
Lemma doc_path_replace_extension (stem : string) :
  Py.contains ".tar" stem = false ->
  doc_path (stem +:+ ".tar") = stem +:+ "_doc.jsonl" /\
  replace_extension (stem +:+ ".tar") = stem +:+ "_doc.jsonl".
Proof.
  intros Hnone. split; [by apply replace_final_tar|].
  unfold replace_extension, Py.endswith.
  rewrite rev_append. cbn. rewrite !decide_True by done.
  replace (Py.startswith (String.rev stem) "") with true
    by by destruct (String.rev stem).
  rewrite length_append. cbn [String.length].
  replace (String.length stem + 4 - 4)%nat with (String.length stem) by lia.
  by rewrite substring_append.
Qed.

Lemma doc_path_replace_extension_witness :
  doc_path "/data/cc3m/00000.tar" = "/data/cc3m/00000_doc.jsonl" /\
  replace_extension "/data/cc3m/00000.tar" = "/data/cc3m/00000_doc.jsonl".
Proof. apply (doc_path_replace_extension "/data/cc3m/00000"). reflexivity. Defined.

(** ** What [json.dumps] prints *)

Lemma printable_append (s t : string) :
  printable (s +:+ t) = printable s && printable t.
Proof.
  induction s as [|c s IH]; [reflexivity|].
  rewrite append_cons. cbn [printable]. by rewrite IH, andb_assoc.
Qed.

Lemma escape_char_printable (c : ascii) : printable (Json.escape_char c) = true.
Proof. by destruct c as [[] [] [] [] [] [] [] []]. Qed.

Lemma escape_printable (s : string) : printable (Json.escape s) = true.
Proof.
  induction s as [|c s IH]; [reflexivity|].
  cbn [Json.escape]. by rewrite printable_append, escape_char_printable, IH.
Qed.

Lemma dumps_str_printable (s : string) : printable (Json.dumps_str s) = true.
Proof.
  unfold Json.dumps_str. cbn [printable].
  by rewrite printable_append, escape_printable.
Qed.

Lemma string_of_uint_printable (d : Decimal.uint) :
  printable (NilEmpty.string_of_uint d) = true.
Proof. induction d; cbn [NilEmpty.string_of_uint printable]; by rewrite ?IHd. Qed.

Lemma dumps_int_printable (n : Z) : printable (Json.dumps_int n) = true.
Proof.
  unfold Json.dumps_int.
  destruct n as [|p|p]; cbn [Z.to_int NilZero.string_of_int]; [reflexivity|..];
    unfold NilZero.string_of_uint;
    destruct (Pos.to_uint p) eqn:Hp; try reflexivity;
    cbn [printable]; rewrite <- ?Hp; by rewrite ?string_of_uint_printable.
Qed.

Lemma dumps_item_printable (kv : string * jvalue) :
  printable (Json.dumps_item kv) = true.
Proof.
  unfold Json.dumps_item. rewrite !printable_append, dumps_str_printable.
  destruct kv as [k [s|n]]; cbn [snd Json.dumps_value];
    by rewrite ?dumps_str_printable, ?dumps_int_printable.
Qed.

Lemma join_printable (sep : string) (parts : list string) :
  printable sep = true -> Forall (fun p => printable p = true) parts ->
  printable (Py.join sep parts) = true.
Proof.
  intros Hsep. induction 1 as [|p parts Hp _ IH]; [reflexivity|].
  destruct parts as [|q parts]; [done|].
  change (Py.join sep (p :: q :: parts))
    with (p +:+ sep +:+ Py.join sep (q :: parts)).
  by rewrite !printable_append, Hp, Hsep, IH.
Qed.

Lemma dumps_printable (doc : document) : printable (Json.dumps doc) = true.
Proof.
  unfold Json.dumps. rewrite !printable_append.
  rewrite join_printable; [done..|].
  induction doc as [|kv doc IH]; constructor; [|done].
  apply dumps_item_printable.
Qed.

(** ** What [json.dumps] prints is JSON *)

Lemma escape_char_chars (c : ascii) (s : string) :
  Json.chars s -> Json.chars (Json.escape_char c +:+ s).
Proof.
  intros Hs.
  destruct c as [[] [] [] [] [] [] [] []];
    lazymatch goal with
    | |- Json.chars (Json.escape_char ?c +:+ _) =>
        let e := eval vm_compute in (Json.escape_char c) in
        change (Json.escape_char c) with e
    end;
    rewrite ?append_cons, ?append_nil_l;
    first [ by apply Json.chars_unicode
          | by apply Json.chars_escape
          | by apply Json.chars_plain ].
Qed.

Lemma escape_chars (s : string) : Json.chars (Json.escape s).
Proof.
  induction s as [|c s IH]; [constructor|].
  cbn [Json.escape]. by apply escape_char_chars.
Qed.

Lemma dumps_str_str (s : string) : Json.str (Json.dumps_str s).
Proof. constructor. apply escape_chars. Qed.

Lemma string_of_uint_digits (d : Decimal.uint) :
  d <> Decimal.Nil -> Json.digits (NilEmpty.string_of_uint d).
Proof.
  induction d as [|d IH|d IH|d IH|d IH|d IH|d IH|d IH|d IH|d IH|d IH];
    intros Hd; [done|..];
    cbn [NilEmpty.string_of_uint];
    (destruct (Decimal.uint_eq_dec d Decimal.Nil) as [->|Hne];
     [by apply Json.digits_one | apply Json.digits_cons; [done | by apply IH]]).
Qed.

Lemma nzhead_not_D0 (u d : Decimal.uint) : Decimal.nzhead u <> Decimal.D0 d.
Proof. induction u; cbn [Decimal.nzhead]; done. Qed.

Lemma to_uint_not_D0 (p : positive) (d : Decimal.uint) :
  Pos.to_uint p <> Decimal.D0 d.
Proof.
  intros Hp.
  assert (Decimal.unorm (Pos.to_uint p) = Pos.to_uint p) as Hnorm.
  { rewrite <- (Unsigned.to_of (Pos.to_uint p)), Unsigned.of_to. reflexivity. }
  apply (Unsigned.to_uint_nonzero p).
  rewrite <- Hnorm. rewrite Hp in *. unfold Decimal.unorm in *.
  destruct (Decimal.nzhead (Decimal.D0 d)) eqn:Hnz; try done.
  by apply nzhead_not_D0 in Hnz.
Qed.

Lemma to_uint_int_part (p : positive) :
  Json.int_part (NilEmpty.string_of_uint (Pos.to_uint p)).
Proof.
  apply Json.int_digits.
  - apply string_of_uint_digits, Unsigned.to_uint_nonnil.
  - pose proof (to_uint_not_D0 p) as Hp.
    destruct (Pos.to_uint p); cbn; try done. by destruct (Hp u).
Qed.

Lemma dumps_int_number (n : Z) : Json.number (Json.dumps_int n).
Proof.
  unfold Json.dumps_int.
  destruct n as [|p|p]; cbn [Z.to_int NilZero.string_of_int].
  - apply (Json.number_pos "0" "" ""); constructor.
  - replace (NilZero.string_of_uint (Pos.to_uint p))
      with (NilEmpty.string_of_uint (Pos.to_uint p) +:+ "" +:+ "").
    + apply Json.number_pos; [apply to_uint_int_part | constructor..].
    + rewrite append_nil_l, append_nil_r. unfold NilZero.string_of_uint.
      pose proof (Unsigned.to_uint_nonnil p). by destruct (Pos.to_uint p).
  - replace (NilZero.string_of_uint (Pos.to_uint p))
      with (NilEmpty.string_of_uint (Pos.to_uint p) +:+ "" +:+ "").
    + apply Json.number_neg; [apply to_uint_int_part | constructor..].
    + rewrite append_nil_l, append_nil_r. unfold NilZero.string_of_uint.
      pose proof (Unsigned.to_uint_nonnil p). by destruct (Pos.to_uint p).
Qed.

Lemma dumps_value_value (v : jvalue) : Json.value (Json.dumps_value v).
Proof.
  destruct v as [s|n]; cbn [Json.dumps_value].
  - apply Json.value_str, dumps_str_str.
  - apply Json.value_number, dumps_int_number.
Qed.

Lemma ws_space : Json.ws " ".
Proof. by repeat constructor. Qed.

(** The pairs of a record, joined, behind any white space. *)
Lemma dumps_items_members (kv : string * jvalue) (doc : document) (w : string) :
  Json.ws w ->
  Json.members (S (length doc))
    (w +:+ Py.join ", " (map Json.dumps_item (kv :: doc))).
Proof.
  revert kv w. induction doc as [|kv' doc IH]; intros kv w Hw.
  - cbn [map Py.join length]. unfold Json.dumps_item.
    pose proof (Json.members_last w (Json.dumps_str kv.1) "" " "
                  (Json.dumps_value kv.2) "" Hw (dumps_str_str _)
                  Json.ws_nil ws_space (dumps_value_value _) Json.ws_nil) as H.
    by rewrite !append_nil_l, append_nil_r, ?append_assoc in *.
  - change (Py.join ", " (map Json.dumps_item (kv :: kv' :: doc)))
      with (Json.dumps_item kv +:+ ", " +:+
            Py.join ", " (map Json.dumps_item (kv' :: doc))).
    unfold Json.dumps_item at 1.
    pose proof (Json.members_more (length doc) w (Json.dumps_str kv.1) "" " "
                  (Json.dumps_value kv.2) ""
                  (" " +:+ Py.join ", " (map Json.dumps_item (kv' :: doc)))
                  Hw (dumps_str_str _)
                  Json.ws_nil ws_space (dumps_value_value _) Json.ws_nil
                  (IH kv' " " ws_space)) as H.
    cbn [length].
    by rewrite !append_nil_l, ?append_assoc in *.
Qed.

(** A record is printed as a JSON object. *)
Lemma dumps_object (doc : document) : Json.object (Json.dumps doc).
Proof.
  unfold Json.dumps. destruct doc as [|kv doc].
  - apply (Json.object_intro 0 ""). constructor. constructor.
  - apply (Json.object_intro (S (length doc))).
    apply (dumps_items_members kv doc ""). constructor.
Qed.

(** ** Text and bytes *)

Lemma printable_printable_lines (s : string) :
  printable s = true -> printable_lines s = true.
Proof.
  induction s as [|c s IH]; [done|]. cbn [printable printable_lines].
  intros [Hc Hs]%andb_true_iff. by rewrite Hc, IH.
Qed.

Lemma printable_lines_append (s t : string) :
  printable_lines (s +:+ t) = printable_lines s && printable_lines t.
Proof.
  induction s as [|c s IH]; [reflexivity|].
  rewrite append_cons. cbn [printable_lines]. by rewrite IH, andb_assoc.
Qed.

Lemma encode_append (s t : string) : encode (s +:+ t) = encode s ++ encode t.
Proof.
  induction s as [|c s IH]; [reflexivity|].
  rewrite append_cons. cbn [encode]. by rewrite IH, app_assoc.
Qed.

Lemma as_text_app (a b : Py.bytes) : as_text (a ++ b) = as_text a +:+ as_text b.
Proof.
  unfold as_text. induction a as [|x a IH]; [reflexivity|].
  cbn [map app string_of_list_ascii]. by rewrite IH.
Qed.

Lemma as_text_encode_char (c : ascii) :
  (printable_char c || (Py.code c =? 10)%N) = true ->
  as_text (encode_char c) = String c "".
Proof. by destruct c as [[] [] [] [] [] [] [] []]. Qed.

(** Text made of printable characters and line feeds is encoded one byte
    per character. *)
Lemma as_text_encode (s : string) :
  printable_lines s = true -> as_text (encode s) = s.
Proof.
  induction s as [|c s IH]; [done|]. cbn [printable_lines encode].
  intros [Hc Hs]%andb_true_iff.
  by rewrite as_text_app, as_text_encode_char, IH.
Qed.

Lemma printable_no_line_feed (s : string) :
  printable s = true -> Py.contains LF s = false.
Proof.
  induction s as [|c s IH]; [done|]. cbn [printable].
  intros [Hc Hs]%andb_true_iff. cbn [Py.contains].
  rewrite (IH Hs), orb_false_r. unfold LF. cbn [Py.startswith].
  case_decide as Heq; [|done]. by subst c.
Qed.

(** ** The side file *)

Lemma concat_lines_cons (l : string) (ls : list string) :
  String.concat "" (map (fun l => l +:+ LF) (l :: ls)) =
  l +:+ LF +:+ String.concat "" (map (fun l => l +:+ LF) ls).
Proof.
  destruct ls as [|l' ls]; cbn [map String.concat].
  - by rewrite append_nil_r.
  - by rewrite append_nil_l, append_assoc.
Qed.

Lemma dump_lines_printable (ls : list string) :
  Forall is_dump ls ->
  printable_lines (String.concat "" (map (fun l => l +:+ LF) ls)) = true.
Proof.
  induction 1 as [|l ls [doc ->] _ IH]; [done|].
  rewrite concat_lines_cons, !printable_lines_append, IH.
  by rewrite printable_printable_lines by apply dumps_printable.
Qed.

(** What is written to the side file of an archive is newline-delimited
    JSON, one object for each line returned. *)
Lemma jsonl_ndjson (ls : list string) :
  Forall is_dump ls -> Json.ndjson (length ls) (as_text (jsonl ls)).
Proof.
  intros Hls. unfold jsonl.
  rewrite as_text_encode by by apply dump_lines_printable.
  induction Hls as [|l ls [doc ->] _ IH]; [constructor|].
  rewrite concat_lines_cons. cbn [length].
  apply (Json.ndjson_cons (length ls) (Json.dumps doc)); [| |done].
  - apply dumps_object.
  - apply printable_no_line_feed, dumps_printable.
Qed.

Section Lines.
Context (E : externals).

Lemma scan_member_lines (st st' : scan_state) (m : member) :
  scan_member E st m = Ok st' ->
  Forall is_dump (lines st) -> Forall is_dump (lines st').
Proof.
  unfold scan_member.
  set (st1 := if is_payload m then _ else st).
  assert (lines st1 = lines st) as Hst1 by (subst st1; by destruct (is_payload m)).
  destruct (is_sidecar m); [|intros [= <-]; by rewrite Hst1].
  unfold scan_sidecar. destruct (cache st1 !! pairing_key m); [|done].
  intros H Hls.
  apply bind_Ok_inv in H as (meta & _ & H).
  apply bind_Ok_inv in H as (url & _ & H).
  apply bind_Ok_inv in H as (doc & _ & H).
  destruct (0 <? length doc)%nat; injection H as <-; cbn [lines];
    rewrite Hst1; [|done].
  apply Forall_app. split; [done|]. constructor; [by exists doc|constructor].
Qed.

Lemma scan_lines (st st' : scan_state) (ms : list member) :
  scan E st ms = Ok st' ->
  Forall is_dump (lines st) -> Forall is_dump (lines st').
Proof.
  revert st. induction ms as [|m ms IH]; intros st; cbn [scan].
  - by intros [= <-].
  - intros H Hls. apply bind_Ok_inv in H as (st1 & H1 & H).
    apply (IH _ H). by apply (scan_member_lines st st1 m).
Qed.

(** The lines [process_tar] returns were made by [json.dumps]. *)
Lemma process_tar_lines
    (fs fs' : filesystem) (filename : string) (ls : list string) :
  process_tar E fs filename = (fs', Ok ls) -> Forall is_dump ls.
Proof.
  intros Hrun.
  apply process_tar_returned in Hrun
    as [(_ & _ & ->) | (_ & _ & archive & ms & st & _ & _ & Hscan & <-)].
  - constructor.
  - apply (scan_lines _ _ _ Hscan). constructor.
Qed.

(** X4: the side file of an archive that is scanned: newline-delimited JSON
    with one object for each record of the archive. *)
Lemma process_tar_side_file
    (fs fs' : filesystem) (filename : string) (ls : list string) :
  isfile fs (doc_path filename) = false ->
  process_tar E fs filename = (fs', Ok ls) ->
  exists bs, fs' !! doc_path filename = Some bs /\
             Json.ndjson (length ls) (as_text bs).
Proof.
  intros Hdoc Hrun. pose proof (process_tar_lines _ _ _ _ Hrun) as Hls.
  apply process_tar_returned in Hrun as [(Hthere & _) | (_ & -> & _)];
    [congruence|].
  exists (jsonl ls). rewrite lookup_insert_eq.
  split; [done|]. by apply jsonl_ndjson.
Qed.

End Lines.

(** ** Writing at the end of a file *)

Lemma write_end (f : file) (bs : Py.bytes) :
  position f = length (written f) ->
  write f bs = File (written f ++ bs) (length (written f ++ bs)).
Proof.
  intros Hpos. unfold write. rewrite Hpos, Nat.sub_diag, take_ge by lia.
  rewrite drop_ge by lia. cbn [replicate app].
  by rewrite app_nil_r, length_app.
Qed.

Lemma writelines_end (f : file) (chunks : list Py.bytes) :
  position f = length (written f) ->
  writelines f chunks =
  File (written f ++ concat chunks) (length (written f ++ concat chunks)).
Proof.
  unfold writelines. revert f.
  induction chunks as [|bs chunks IH]; intros f Hpos; cbn [foldl concat].
  - rewrite app_nil_r. destruct f as [w p]. cbn in *. by subst.
  - rewrite IH by by rewrite write_end.
    rewrite write_end by done. cbn [written]. by rewrite <- !app_assoc.
Qed.

(** The file before the [seek]: the opening line and one line for each
    record, in the order of the results. *)
Lemma manifest_body_written (results : list (list string)) :
  manifest_body results =
  File (encode ("[" +:+ LF) ++ concat (map manifest_line (concat results)))
       (length (encode ("[" +:+ LF) ++ concat (map manifest_line (concat results)))).
Proof.
  unfold manifest_body.
  assert (forall (f : file),
             position f = length (written f) ->
             foldl (fun f ls => writelines f (map manifest_line ls)) f results =
             File (written f ++ concat (map manifest_line (concat results)))
                  (length (written f ++ concat (map manifest_line (concat results)))))
    as Hloop.
  { induction results as [|ls results IH]; intros f Hpos; cbn [foldl concat map].
    - rewrite app_nil_r. destruct f as [w p]. cbn in *. by subst.
    - rewrite IH by by rewrite writelines_end.
      rewrite writelines_end by done. cbn [written].
      by rewrite map_app, concat_app, <- !app_assoc. }
  rewrite Hloop by done. reflexivity.
Qed.

(** The [seek] and the last write, on a file that ends where it is: the
    last two bytes give way to the two bytes written. *)
Lemma seek_write_end (body : Py.bytes) (a b : byte) :
  (2 <= length body)%nat ->
  (seek_cur (File body (length body)) (-2) ≫=
     fun f => mret (write f [a; b])) =
  Ok (File (take (length body - 2) body ++ [a; b]) (length body)).
Proof.
  intros Hlen. unfold seek_cur. cbn [position written].
  destruct (Z.ltb_spec (Z.of_nat (length body) + -2) 0) as [?|_]; [lia|].
  rewrite bind_Ok. unfold write. cbn [position written mret result_ret].
  replace (Z.to_nat (Z.of_nat (length body) + -2)) with (length body - 2)%nat by lia.
  replace (length body - 2 - length body)%nat with 0%nat by lia.
  cbn [length replicate app].
  rewrite drop_ge by (cbn [length]; lia). do 2 f_equal. cbn [length]. lia.
Qed.

(** ** The manifest of one record or more *)

Lemma manifest_line_bytes (l : string) :
  manifest_line l = encode ("  " +:+ l) ++ [x2c; x0a].
Proof. unfold manifest_line. by rewrite !encode_append, app_assoc. Qed.

Lemma manifest_lines_length (l : string) (ls : list string) :
  (2 <= length (concat (map manifest_line (l :: ls))))%nat.
Proof.
  cbn [map concat]. rewrite manifest_line_bytes, !length_app. cbn [length]. lia.
Qed.

(** The lines of the records without the comma and the line feed that end
    the last of them, between two line feeds: the rows of the manifest. *)
Lemma manifest_rows_bytes (l : string) (ls : list string) :
  [x0a] ++
  take (length (concat (map manifest_line (l :: ls))) - 2)
       (concat (map manifest_line (l :: ls))) ++
  [x0a]
  = encode (manifest_rows l ls).
Proof.
  revert l. induction ls as [|l' ls IH]; intros l.
  - cbn [map concat manifest_rows]. rewrite app_nil_r, manifest_line_bytes.
    rewrite length_app. cbn [length].
    replace (length (encode ("  " +:+ l)) + 2 - 2)%nat
      with (length (encode ("  " +:+ l))) by lia.
    rewrite take_app_length.
    by rewrite !encode_append.
  - pose proof (manifest_lines_length l' ls) as Hlen.
    change (concat (map manifest_line (l :: l' :: ls)))
      with (manifest_line l ++ concat (map manifest_line (l' :: ls))).
    rewrite length_app.
    replace (length (manifest_line l) +
             length (concat (map manifest_line (l' :: ls))) - 2)%nat
      with (length (manifest_line l) +
            (length (concat (map manifest_line (l' :: ls))) - 2))%nat by lia.
    rewrite take_app_add. cbn [manifest_rows].
    rewrite !encode_append, <- IH, manifest_line_bytes, !encode_append.
    by rewrite <- !app_assoc.
Qed.

Lemma manifest_rows_printable (l : string) (ls : list string) :
  Forall is_dump (l :: ls) -> printable_lines (manifest_rows l ls) = true.
Proof.
  revert l. induction ls as [|l' ls IH]; intros l Hls;
    apply Forall_cons in Hls as [[doc ->] Hls]; cbn [manifest_rows];
    rewrite !printable_lines_append,
      (printable_printable_lines _ (dumps_printable doc)); [done|].
  by rewrite IH.
Qed.

Lemma ws_indent : Json.ws (LF +:+ "  ").
Proof. by repeat constructor. Qed.

Lemma ws_line_feed : Json.ws LF.
Proof. by repeat constructor. Qed.

Lemma manifest_rows_objects (l : string) (ls : list string) :
  Forall is_dump (l :: ls) ->
  Json.objects (S (length ls)) (manifest_rows l ls).
Proof.
  revert l. induction ls as [|l' ls IH]; intros l Hls;
    apply Forall_cons in Hls as [[doc ->] Hls]; cbn [manifest_rows length].
  - pose proof (Json.objects_last (LF +:+ "  ") (Json.dumps doc) LF
                  ws_indent (dumps_object doc) ws_line_feed) as H.
    by rewrite ?append_assoc in H.
  - pose proof (Json.objects_more (length ls) (LF +:+ "  ") (Json.dumps doc) ""
                  (manifest_rows l' ls)
                  ws_indent (dumps_object doc) Json.ws_nil (IH l' Hls)) as H.
    by rewrite ?append_assoc, ?append_nil_l in H.
Qed.

(** With one record or more, the file that is closed is a JSON array with
    one object for each record. *)
Lemma manifest_with_records (results : list (list string)) :
  concat results <> [] ->
  Forall is_dump (concat results) ->
  exists f, write_manifest results = Ok f /\
            Json.array_of_objects (length (concat results)) (as_text (written f)).
Proof.
  intros Hne Hls. unfold write_manifest. rewrite manifest_body_written.
  destruct (concat results) as [|l ls] eqn:Hlines; [done|].
  pose proof (manifest_lines_length l ls) as Hlen.
  change (encode (LF +:+ "]")) with [x0a; x5d].
  rewrite seek_write_end by (rewrite length_app; cbn [length encode]; lia).
  eexists. split; [reflexivity|]. cbn [written].
  change (encode ("[" +:+ LF)) with ([x5b] ++ [x0a]).
  rewrite !length_app. cbn [length].
  replace (1 + 1 + length (concat (map manifest_line (l :: ls))) - 2)%nat
    with (length ([x5b] ++ [x0a]) +
          (length (concat (map manifest_line (l :: ls))) - 2))%nat
    by (cbn [length app]; lia).
  rewrite take_app_add.
  set (X := concat (map manifest_line (l :: ls))) in *.
  assert ((([x5b] ++ [x0a]) ++ take (length X - 2) X) ++ [x0a; x5d]
          = encode ("[" +:+ manifest_rows l ls +:+ "]")) as ->.
  { rewrite !encode_append, <- manifest_rows_bytes. fold X.
    change (encode "[") with [x5b]. change (encode "]") with [x5d].
    by rewrite <- !app_assoc. }
  rewrite as_text_encode.
  - pose proof (Json.array_of_objects_intro (S (length ls)) ""
                  (manifest_rows l ls) ""
                  Json.ws_nil (manifest_rows_objects l ls Hls) Json.ws_nil) as H.
    by rewrite ?append_nil_l, ?append_nil_r in H.
  - rewrite !printable_lines_append. by rewrite manifest_rows_printable.
Qed.

(** ** [main] *)

Section MainFacts.
Context (E : externals) (completion : list string -> list string).

Lemma run_pool_lines
    (fs fs' : filesystem) (tasks : list string) (results : list (list string)) :
  run_pool E fs tasks = (fs', Ok results) -> Forall is_dump (concat results).
Proof.
  revert fs results. induction tasks as [|t tasks IH]; intros fs results;
    cbn [run_pool].
  - intros [= _ <-]. constructor.
  - destruct (process_tar E fs t) as [fs1 [r|e]] eqn:Htar; [|done].
    destruct (run_pool E fs1 tasks) as [fs2 [rs|e]] eqn:Hpool; [|done].
    intros [= <- <-]. cbn [concat]. apply Forall_app. split.
    + by apply (process_tar_lines E fs fs1 t).
    + by apply (IH fs1).
Qed.

(** X5: what [main] leaves in the manifest when it returns: with one record or
    more, a JSON array with one object for each record the archives
    yielded; with none, a line feed and a closing bracket. *)
Lemma main_manifest
    (fs fs' : filesystem) (path : string) (out_file : option string) :
  main E completion fs path out_file = (fs', Ok tt) ->
  exists fs1 results bs,
    run_pool E fs (completion (tar_files fs path)) = (fs1, Ok results) /\
    fs' !! str_or out_file (path +:+ ".json") = Some bs /\
    (concat results <> [] ->
     Json.array_of_objects (length (concat results)) (as_text bs)) /\
    (concat results = [] -> as_text bs = LF +:+ "]").
Proof.
  unfold main. destruct (isdir fs path); [|done].
  destruct (0 <? length (tar_files fs path))%nat; [|done].
  destruct (run_pool E fs (completion (tar_files fs path)))
    as [fs1 [results|e]] eqn:Hpool; [|done].
  destruct (writable fs1 _); [|done].
  destruct (write_manifest results) as [f|e] eqn:Hwrite; [|done].
  intros [= <-]. exists fs1, results, (written f).
  rewrite lookup_insert_eq. repeat split.
  - intros Hne.
    destruct (manifest_with_records results Hne (run_pool_lines _ _ _ _ Hpool))
      as (f' & Hf' & Harray).
    rewrite Hwrite in Hf'. by injection Hf' as <-.
  - intros Hnil. revert Hwrite. unfold write_manifest, manifest_body.
    rewrite manifest_loop_empty by done. by intros [= <-].
Qed.

End MainFacts.

Lemma main_manifest_witness :
  exists fs1 results bs,
    run_pool Fixture.world Fixture.corpus (tar_files Fixture.corpus "/d")
    = (fs1, Ok results) /\
    (main Fixture.world (fun tasks => tasks) Fixture.corpus "/d" None).1
      !! str_or None ("/d" +:+ ".json") = Some bs /\
    (concat results <> [] ->
     Json.array_of_objects (length (concat results)) (as_text bs)) /\
    (concat results = [] -> as_text bs = LF +:+ "]").
Proof.
  apply (main_manifest Fixture.world (fun tasks => tasks) Fixture.corpus
           (main Fixture.world (fun tasks => tasks) Fixture.corpus "/d" None).1
           "/d" None).
  vm_compute. reflexivity.
Defined.

Lemma process_image_timestamp_kept_witness :
  record_get
    [("domain", JStr "example.com"); ("iscc", JStr "CCSunset-CY-CD-CR");
     ("timestamp", JInt 5); ("bytes", JInt 5);
     ("checksum", JStr "c0ffee"); ("mime-type", JStr "image/jpeg")]
    "timestamp"
  = Some (JInt 5).
Proof.
  apply (process_image_timestamp_kept Fixture.world Fixture.sunset_jpg
           "Sunset" "https://example.com/a.jpg" 5
           (Image None (Ok ∅) []) "image/jpeg");
    [lia | reflexivity | reflexivity].
Defined.

Lemma process_tar_side_file_witness :
  exists bs,
    (process_tar Fixture.world Fixture.payload_first "/d/0.tar").1
      !! doc_path "/d/0.tar" = Some bs /\
    Json.ndjson (length [Json.dumps Fixture.sunset_record]) (as_text bs).
Proof.
  apply (process_tar_side_file Fixture.world Fixture.payload_first
           (process_tar Fixture.world Fixture.payload_first "/d/0.tar").1
           "/d/0.tar" [Json.dumps Fixture.sunset_record]).
  - reflexivity.
  - vm_compute. reflexivity.
Defined.

(** * Further properties *)

(** ** The record [process_image] returns *)

Section RecordFacts.
Context (E : externals).

(** What a call that returns has gone through, for a payload that decoded:
    the title was not empty, the URL parsed, the tags were read, and the
    record is the six fields in order, the copyright after them when there
    is one. *)
Lemma process_image_decoded_inv
    (data : Py.bytes) (title url : string) (timestamp : option Z)
    (img : image) (mime_type : string) (doc : document) :
  decode E data = Ok (img, mime_type) ->
  process_image E data title url timestamp = Ok doc ->
  exists domain cmi,
    title <> "" /\
    urlparse_netloc E url = Ok domain /\
    get_copyright E img = Ok cmi /\
    doc =
    [("domain", JStr domain);
     ("iscc", JStr (Py.join "-" [(iscc_meta_id E title "").1.1;
                                 iscc_content_id_image E img;
                                 iscc_data_id E data;
                                 (iscc_instance_id E data).1]));
     ("timestamp", JInt (int_or timestamp (time_time E)));
     ("bytes", JInt (Z.of_nat (length data)));
     ("checksum", JStr (iscc_instance_id E data).2);
     ("mime-type", JStr mime_type)]
    ++ match cmi with Some c => [("copyright", JStr c)] | None => [] end.
Proof.
  intros Hdec. unfold process_image. rewrite Hdec.
  destruct title as [|c title]; [done|]. cbn [str_truthy unpack3].
  rewrite bind_Ok.
  destruct (iscc_meta_id E (String c title) "") as [[meta_id t] x].
  destruct (iscc_instance_id E data) as [instance_id checksum].
  intros Hdoc.
  apply bind_Ok_inv in Hdoc as (domain & Hdomain & Hdoc).
  apply bind_Ok_inv in Hdoc as (cmi & Hcmi & Hdoc).
  exists domain, cmi. repeat split; try done.
  destruct cmi; injection Hdoc as <-; by rewrite ?app_nil_r.
Qed.

(** X6: the shape of a record: for a payload that decoded, the keys are the six
    fixed ones, in order, followed by [copyright] exactly when
    [get_copyright] found one on the converted image; [bytes] is the length
    of the payload and [mime-type] the type sniffed before the conversion. *)
Lemma process_image_record
    (data : Py.bytes) (title url : string) (timestamp : option Z)
    (img : image) (mime_type : string) (doc : document) :
  decode E data = Ok (img, mime_type) ->
  process_image E data title url timestamp = Ok doc ->
  exists cmi,
    get_copyright E img = Ok cmi /\
    map fst doc =
      RECORD_KEYS ++ match cmi with Some _ => ["copyright"] | None => [] end /\
    record_get doc "bytes" = Some (JInt (Z.of_nat (length data))) /\
    record_get doc "mime-type" = Some (JStr mime_type) /\
    record_get doc "checksum" = Some (JStr (iscc_instance_id E data).2) /\
    record_get doc "copyright" = JStr <$> cmi.
Proof.
  intros Hdec Hdoc.
  destruct (process_image_decoded_inv _ _ _ _ _ _ _ Hdec Hdoc)
    as (domain & cmi & _ & _ & Hcmi & ->).
  exists cmi. split; [done|]. by destruct cmi.
Qed.

(** X7: the title reaches the record through the first component of [iscc]
    only: for two titles, neither empty, the records of the same payload,
    URL and timestamp agree on every key but [iscc] and [timestamp], they
    both carry a timestamp that was given and is not 0, and their [iscc]
    fields differ at most in what precedes the first dash of the join. *)
Lemma process_image_title_independence
    (data : Py.bytes) (title1 title2 url : string) (timestamp : option Z)
    (img : image) (mime_type : string) (doc1 : document) :
  decode E data = Ok (img, mime_type) ->
  title2 <> "" ->
  process_image E data title1 url timestamp = Ok doc1 ->
  exists doc2 tail,
    process_image E data title2 url timestamp = Ok doc2 /\
    (forall key, key <> "iscc" -> key <> "timestamp" ->
                 record_get doc2 key = record_get doc1 key) /\
    (forall t, timestamp = Some t -> t <> 0 ->
               record_get doc1 "timestamp" = Some (JInt t) /\
               record_get doc2 "timestamp" = Some (JInt t)) /\
    record_get doc1 "iscc" =
      Some (JStr ((iscc_meta_id E title1 "").1.1 +:+ "-" +:+ tail)) /\
    record_get doc2 "iscc" =
      Some (JStr ((iscc_meta_id E title2 "").1.1 +:+ "-" +:+ tail)).
Proof.
  intros Hdec Htitle2 Hdoc1.
  destruct (process_image_decoded_inv _ _ _ _ _ _ _ Hdec Hdoc1)
    as (domain & cmi & _ & Hdomain & Hcmi & ->).
  eexists _, (Py.join "-" [iscc_content_id_image E img; iscc_data_id E data;
                           (iscc_instance_id E data).1]).
  split; [by apply (process_image_decoded E data title2 url timestamp img
                      mime_type domain cmi)|].
  split; [|split; [|by split]].
  - intros key Hkey Htime. cbn [record_get app].
    repeat (case_decide; [by subst|]). done.
  - intros t -> Ht. cbn [record_get app int_or].
    rewrite !decide_False by done. rewrite !decide_True by done.
    rewrite decide_False by done. done.
Qed.

(** X8: the record is empty exactly when the payload did not decode: the test
    [len(doc) > 0] of [process_tar] drops those payloads and no other. *)
Lemma process_image_empty_iff_undecodable
    (data : Py.bytes) (title url : string) (timestamp : option Z)
    (doc : document) :
  process_image E data title url timestamp = Ok doc ->
  (doc = [] <-> undecodable E data).
Proof.
  intros Hdoc. split.
  - intros ->. revert Hdoc. unfold undecodable, process_image.
    destruct (decode E data) as [[img mime_type]|e] eqn:Hdec.
    + intros Hdoc.
      by destruct (process_image_decoded_inv _ _ _ _ _ _ _ Hdec
                     ltac:(unfold process_image; rewrite Hdec; exact Hdoc))
        as (? & ? & _ & _ & _ & ?).
    + destruct e; cbn; try done; auto.
  - intros Hund. rewrite process_image_undecodable in Hdoc by done.
    by injection Hdoc.
Qed.

(** X9: an image whose format was not detected is neither recorded nor
    skipped: the [TypeError] of [get_mime_type] is raised inside the [try]
    and is not one of the exceptions handled there. *)
Lemma process_image_undetected_format_raises
    (data : Py.bytes) (title url : string) (timestamp : option Z) (img : image) :
  Image_open E data = Ok img -> format img = None ->
  process_image E data title url timestamp = Raise TypeError.
Proof.
  intros Hopen Hformat. unfold process_image, decode, get_mime_type.
  by rewrite Hopen, bind_Ok, Hformat.
Qed.

(** X10: malformed embedded metadata does not stop the record: when reading the
    tags of the converted image raises [SyntaxError], the record is
    returned without a copyright. *)
Lemma process_image_malformed_exif
    (data : Py.bytes) (title url : string) (timestamp : option Z)
    (img : image) (mime_type domain : string) :
  decode E data = Ok (img, mime_type) ->
  title <> "" ->
  urlparse_netloc E url = Ok domain ->
  getexif img = Raise SyntaxError ->
  exists doc,
    process_image E data title url timestamp = Ok doc /\
    map fst doc = RECORD_KEYS /\
    record_get doc "copyright" = None.
Proof.
  intros Hdec Htitle Hdomain Hexif. eexists. split.
  - apply (process_image_decoded E data title url timestamp img mime_type
             domain None); try done.
    unfold get_copyright. by rewrite Hexif.
  - by split.
Qed.

End RecordFacts.

(** ** What [get_copyright] returns *)

Section CopyrightValue.
Context (E : externals).

Lemma first_accepted_value
    (tags : gmap Z string) (candidates : list Z) (s : string) :
  first_accepted E tags candidates = Some s ->
  exists tag raw,
    tag ∈ candidates /\ tags !! tag = Some raw /\
    s = fix_text E (Py.strip raw) /\ rejected raw = false.
Proof.
  induction candidates as [|tag rest IH]; [done|].
  rewrite first_accepted_cons.
  destruct (tags !! tag) as [raw|] eqn:Hraw.
  - destruct (rejected raw) eqn:Hrej.
    + intros (tag' & raw' & Hin & H)%IH. exists tag', raw'.
      split; [by right | done].
    + intros [= <-]. exists tag, raw. split; [by left | done].
  - intros (tag' & raw' & Hin & H)%IH. exists tag', raw'.
    split; [by right | done].
Qed.

(** X11: a string [get_copyright] returns is the value of the copyright tag or
    of the artist tag, trimmed and passed through [fix_text]; trimmed, the
    value has two characters or more and does not hold [[None]]. *)
Lemma get_copyright_accepted_value (img : image) (s : string) :
  get_copyright E img = Ok (Some s) ->
  exists tags tag raw,
    getexif img = Ok tags /\
    (tag = COPYRIGHT_TAG \/ tag = ARTIST_TAG) /\
    tags !! tag = Some raw /\
    s = fix_text E (Py.strip raw) /\
    (2 <= String.length (Py.strip raw))%nat /\
    Py.contains "[None]" (Py.strip raw) = false.
Proof.
  unfold get_copyright.
  destruct (getexif img) as [tags|e] eqn:Hexif; [|by destruct e].
  intros Hs.
  assert (first_accepted E tags [COPYRIGHT_TAG; ARTIST_TAG] = Some s) as Hs'
    by congruence.
  clear Hs. rename Hs' into Hs.
  apply first_accepted_value in Hs as (tag & raw & Hin & Hraw & -> & Hrej).
  exists tags, tag, raw.
  unfold rejected in Hrej. apply orb_false_iff in Hrej as [Hlen Hnone].
  apply Nat.ltb_ge in Hlen.
  repeat split; try done.
  apply elem_of_cons in Hin as [->|Hin]; [by left|].
  apply elem_of_cons in Hin as [->|Hin]; [by right|].
  by apply elem_of_nil in Hin.
Qed.

End CopyrightValue.

(** ** What [process_tar] does to the file system and to its lines *)

Section TarFacts.
Context (E : externals).

(** X12: [process_tar] touches one path at most, that of the side file; it
    writes nothing when it raises; and when it scans the archive and
    returns, the side file holds the returned lines, each ended by a line
    feed. *)
Lemma process_tar_frame
    (fs fs' : filesystem) (filename : string) (r : result (list string)) :
  process_tar E fs filename = (fs', r) ->
  (forall path, path <> doc_path filename -> fs' !! path = fs !! path) /\
  (forall e, r = Raise e -> fs' = fs) /\
  (forall ls, r = Ok ls -> isfile fs (doc_path filename) = false ->
              fs' !! doc_path filename = Some (jsonl ls)).
Proof.
  intros Hrun. destruct r as [ls|e].
  - apply process_tar_returned in Hrun as [(Hdoc & -> & ->) | (Hdoc & -> & _)].
    + repeat split; try done. intros ls _ Hnone. congruence.
    + repeat split; try done.
      * intros path Hpath. by rewrite lookup_insert_ne.
      * intros ls' [= <-] _. by rewrite lookup_insert_eq.
  - apply process_tar_raised in Hrun as ->. by repeat split.
Qed.

Lemma scan_member_irrelevant (st : scan_state) (m : member) :
  relevant m = false -> scan_member E st m = Ok st.
Proof.
  unfold relevant. intros [Hp Hs]%orb_false_iff.
  unfold scan_member. by rewrite Hp, Hs.
Qed.

(** X13: entries that are neither payloads nor sidecars (their lower-cased name
    ends neither in [.jpg] nor in [.json]) change nothing: the scan of an
    archive is the scan of its payloads and sidecars. *)
Lemma scan_ignores_other_entries (st : scan_state) (ms : list member) :
  scan E st (List.filter relevant ms) = scan E st ms.
Proof.
  revert st. induction ms as [|m ms IH]; intros st; [reflexivity|].
  cbn [List.filter scan]. destruct (relevant m) eqn:Hm.
  - cbn [scan]. destruct (scan_member E st m); [|reflexivity].
    by rewrite !bind_Ok.
  - by rewrite scan_member_irrelevant, bind_Ok.
Qed.

Lemma scan_member_not_sidecar (st : scan_state) (m : member) :
  is_sidecar m = false ->
  exists c, scan_member E st m = Ok (ScanState c (lines st)).
Proof.
  intros Hs. unfold scan_member. rewrite Hs. destruct st as [c0 ls].
  destruct (is_payload m); by eexists.
Qed.

Lemma scan_without_sidecars (st : scan_state) (ms : list member) :
  Forall (fun m => is_sidecar m = false) ms ->
  exists c, scan E st ms = Ok (ScanState c (lines st)).
Proof.
  intros Hms. revert st. induction Hms as [|m ms Hm _ IH]; intros st.
  - exists (cache st). by destruct st.
  - cbn [scan]. destruct (scan_member_not_sidecar st m Hm) as [c ->].
    rewrite bind_Ok. apply (IH (ScanState c (lines st))).
Qed.

(** X14: payloads that no sidecar follows are dropped without a word: an
    archive without a sidecar entry gives no record and no exception, and
    its side file, where it can be written, is written empty. *)
Lemma process_tar_without_sidecars
    (fs : filesystem) (filename : string) (archive : Py.bytes)
    (ms : list member) :
  isfile fs (doc_path filename) = false ->
  fs !! filename = Some archive ->
  getmembers E archive = Ok ms ->
  Forall (fun m => is_sidecar m = false) ms ->
  writable fs (doc_path filename) = true ->
  process_tar E fs filename = (<[doc_path filename := []]> fs, Ok []).
Proof.
  intros Hdoc Hfile Hms Hnone Hw.
  destruct (scan_without_sidecars (ScanState ∅ []) ms Hnone) as [c Hscan].
  by rewrite (process_tar_scanned E fs filename archive ms _
                Hdoc Hfile Hms Hscan Hw).
Qed.

Lemma scan_member_lines_bound (st st' : scan_state) (m : member) :
  scan_member E st m = Ok st' ->
  exists new, lines st' = lines st ++ new /\
              (length new <= length (List.filter is_sidecar [m]))%nat.
Proof.
  cbn [List.filter]. destruct (is_sidecar m) eqn:Hs.
  - rewrite scan_member_sidecar by done. unfold scan_sidecar.
    destruct (cache st !! pairing_key m); [|done]. intros H.
    apply bind_Ok_inv in H as (meta & _ & H).
    apply bind_Ok_inv in H as (url & _ & H).
    apply bind_Ok_inv in H as (doc & _ & H).
    destruct (0 <? length doc)%nat; injection H as <-; cbn [lines].
    + eexists. split; [reflexivity | cbn [length]; lia].
    + exists []. split; [by rewrite app_nil_r | cbn [length]; lia].
  - destruct (scan_member_not_sidecar st m Hs) as [c ->]. intros [= <-].
    exists []. split; [by rewrite app_nil_r | cbn [length]; lia].
Qed.

(** X15: the lines are only ever appended to, one at most for each sidecar
    entry: an archive yields at most as many records as it has sidecars. *)
Lemma scan_lines_bound (st st' : scan_state) (ms : list member) :
  scan E st ms = Ok st' ->
  exists new, lines st' = lines st ++ new /\
              (length new <= length (List.filter is_sidecar ms))%nat.
Proof.
  revert st. induction ms as [|m ms IH]; intros st; cbn [scan].
  - intros [= <-]. exists []. split; [by rewrite app_nil_r | cbn; lia].
  - intros H. apply bind_Ok_inv in H as (st1 & H1 & H).
    apply scan_member_lines_bound in H1 as (new1 & Hnew1 & Hlen1).
    apply IH in H as (new2 & Hnew2 & Hlen2).
    exists (new1 ++ new2). split.
    + by rewrite Hnew2, Hnew1, app_assoc.
    + rewrite length_app. cbn [List.filter] in *.
      destruct (is_sidecar m); cbn [length] in *; lia.
Qed.

(** X27: the side file is opened once the scan has come to its end: when it
    cannot be opened, its directory not being there, [process_tar] raises
    [OSError], and the lines of the archive are neither written nor
    returned. *)
Lemma process_tar_unwritable
    (fs : filesystem) (filename : string) (archive : Py.bytes)
    (ms : list member) (st : scan_state) :
  isfile fs (doc_path filename) = false ->
  fs !! filename = Some archive ->
  getmembers E archive = Ok ms ->
  scan E (ScanState ∅ []) ms = Ok st ->
  writable fs (doc_path filename) = false ->
  process_tar E fs filename = (fs, Raise OSError).
Proof.
  intros Hdoc Hfile Hms Hscan Hw.
  rewrite (process_tar_fresh E fs filename archive ms Hdoc Hfile Hms), Hscan.
  unfold write_file. by rewrite Hw.
Qed.

End TarFacts.

(** ** More on strings *)

Lemma rev_app_rev_app (s acc acc' : string) :
  String.rev_app (String.rev_app s acc) acc' = String.rev_app acc (s +:+ acc').
Proof.
  revert acc acc'. induction s as [|c s IH]; intros acc acc'; [reflexivity|].
  cbn [String.rev_app]. by rewrite IH.
Qed.

Lemma rev_involutive (s : string) : String.rev (String.rev s) = s.
Proof. unfold String.rev. rewrite rev_app_rev_app. cbn. apply append_nil_r. Qed.

Lemma rev_app_spec (s acc : string) :
  String.rev_app s acc = String.rev s +:+ acc.
Proof.
  revert acc. unfold String.rev. induction s as [|c s IH]; intros acc; [reflexivity|].
  cbn [String.rev_app]. rewrite (IH (String c "")), IH.
  by rewrite append_assoc.
Qed.

Lemma rev_append_distr (s t : string) :
  String.rev (s +:+ t) = String.rev t +:+ String.rev s.
Proof. by rewrite rev_append, rev_app_spec. Qed.

Lemma startswith_inv (s p : string) :
  Py.startswith s p = true -> exists t, s = p +:+ t.
Proof.
  revert s. induction p as [|a p IH]; intros s.
  - by exists s.
  - destruct s as [|b s]; [done|]. cbn [Py.startswith].
    case_decide as Hab; [|done]. subst b.
    intros [t ->]%IH. by exists t.
Qed.

Lemma startswith_append (p t : string) : Py.startswith (p +:+ t) p = true.
Proof.
  induction p as [|a p IH]; [by destruct t|].
  rewrite append_cons. cbn [Py.startswith]. by rewrite decide_True.
Qed.

Lemma endswith_inv (s p : string) :
  Py.endswith s p = true -> exists stem, s = stem +:+ p.
Proof.
  unfold Py.endswith. intros [r Hr]%startswith_inv.
  exists (String.rev r).
  rewrite <- (rev_involutive s), Hr, rev_append_distr.
  by rewrite rev_involutive.
Qed.

Lemma endswith_append (stem p : string) : Py.endswith (stem +:+ p) p = true.
Proof.
  unfold Py.endswith. rewrite rev_append_distr. apply startswith_append.
Qed.

Lemma contains_append_r (s p : string) : Py.contains p (s +:+ p) = true.
Proof.
  induction s as [|c s IH].
  - rewrite append_nil_l. destruct p as [|a p]; [reflexivity|].
    cbn [Py.contains].
    by rewrite <- (append_nil_r (String a p)) at 1; rewrite startswith_append.
  - rewrite append_cons. cbn [Py.contains]. rewrite IH. apply orb_true_r.
Qed.

(** ** [str.replace] and the path of the side file *)

Lemma replace_absent (s old new : string) :
  Py.contains old s = false -> Py.replace s old new = s.
Proof.
  unfold Py.replace. induction s as [|c s IH]; [done|].
  cbn [Py.contains]. intros [Hhere Hlater]%orb_false_iff.
  cbn [Py.replace_from]. rewrite Hhere. f_equal. by apply IH.
Qed.

Lemma replace_tar_changes (s : string) :
  Py.contains ".tar" s = true -> doc_path s <> s.
Proof.
  unfold doc_path, Py.replace. induction s as [|c s IH]; [done|].
  cbn [Py.contains]. destruct (Py.startswith (String c s) ".tar") eqn:Hhere.
  - intros _. apply startswith_inv in Hhere as [t Ht].
    cbn [Py.replace_from]. rewrite Ht at 1.
    rewrite startswith_append. rewrite Ht. done.
  - cbn [orb Py.replace_from]. rewrite Hhere. intros Hlater%IH. congruence.
Qed.

(** The side file of a path that ends in [.tar] ends in [_doc.jsonl]. *)
Lemma doc_path_suffix (stem : string) :
  exists x, doc_path (stem +:+ ".tar") = x +:+ "_doc.jsonl".
Proof.
  unfold doc_path, Py.replace.
  remember (String.length stem) as n eqn:Hn.
  revert stem Hn. induction n as [n IH] using lt_wf_ind. intros stem Hn.
  destruct stem as [|c t].
  - exists "". reflexivity.
  - destruct (Py.startswith (String c t) ".tar") eqn:Hhere.
    + apply startswith_inv in Hhere as [stem' Hstem].
      rewrite Hstem. rewrite Hstem in Hn.
      destruct (IH (String.length stem')) with (stem := stem') as [x Hx];
        [rewrite length_append in Hn; cbn in Hn; lia | done |].
      exists ("_doc.jsonl" +:+ x).
      rewrite !append_cons, append_nil_l.
      cbn [Py.replace_from Py.startswith]. rewrite !decide_True by done.
      replace (Py.startswith (stem' +:+ ".tar") "") with true
        by by destruct (stem' +:+ ".tar").
      cbn [String.length Nat.pred].
      by rewrite Hx.
    + destruct (IH (String.length t)) with (stem := t) as [x Hx];
        [cbn in Hn; lia | done |].
      exists (String c x).
      apply startswith_tar_append in Hhere.
      rewrite !append_cons in *. cbn [Py.replace_from].
      by rewrite Hhere, Hx.
Qed.

Lemma doc_path_not_tar (filename : string) :
  Py.endswith filename ".tar" = true ->
  Py.endswith (doc_path filename) ".tar" = false.
Proof.
  intros [stem ->]%endswith_inv.
  destruct (doc_path_suffix stem) as [x ->].
  unfold Py.endswith. by rewrite rev_append_distr.
Qed.

(** ** [process_tar], the archive and its side file *)

Section ArchiveFacts.
Context (E : externals).

Lemma process_tar_other_paths
    (fs fs' : filesystem) (filename path : string) (r : result (list string)) :
  process_tar E fs filename = (fs', r) ->
  path <> doc_path filename -> fs' !! path = fs !! path.
Proof.
  intros Hrun Hpath. destruct r as [ls|e].
  - apply process_tar_returned in Hrun as [(_ & -> & _) | (_ & -> & _)];
      [done|].
    by rewrite lookup_insert_ne.
  - by apply process_tar_raised in Hrun as ->.
Qed.

(** X19: a file whose name does not hold [.tar] is its own side file: when it
    exists, [process_tar] takes it for processed and returns the empty list
    without opening it. *)
Lemma process_tar_name_without_tar (fs : filesystem) (filename : string) :
  Py.contains ".tar" filename = false ->
  isfile fs filename = true ->
  process_tar E fs filename = (fs, Ok []).
Proof.
  intros Hnone Hfile. unfold process_tar, doc_path.
  by rewrite replace_absent, Hfile.
Qed.

(** X20: [process_tar] never writes to the archive it is given, as long as the
    name of the archive holds [.tar]: the side file is another file. *)
Lemma process_tar_keeps_archive
    (fs fs' : filesystem) (filename : string) (r : result (list string)) :
  Py.contains ".tar" filename = true ->
  process_tar E fs filename = (fs', r) ->
  fs' !! filename = fs !! filename.
Proof.
  intros Htar Hrun. apply (process_tar_other_paths _ _ _ _ _ Hrun).
  intros Heq. by apply (replace_tar_changes filename).
Qed.

(** A run that returned leaves the side file behind. *)
Lemma process_tar_marker
    (fs fs' : filesystem) (filename : string) (ls : list string) :
  process_tar E fs filename = (fs', Ok ls) ->
  isfile fs' (doc_path filename) = true.
Proof.
  intros Hrun.
  apply process_tar_returned in Hrun as [(Hdoc & -> & _) | (_ & -> & _)];
    [done|].
  unfold isfile. apply bool_decide_eq_true.
  rewrite lookup_insert_eq. by eexists.
Qed.

(** No file goes away. *)
Lemma process_tar_isfile_mono
    (fs fs' : filesystem) (filename path : string) (r : result (list string)) :
  process_tar E fs filename = (fs', r) ->
  isfile fs path = true -> isfile fs' path = true.
Proof.
  intros Hrun. destruct (decide (path = doc_path filename)) as [->|Hne].
  - revert Hrun. unfold process_tar.
    destruct (isfile fs (doc_path filename)) eqn:Hdoc; [by intros [= <- _]|].
    by intros _ ?.
  - unfold isfile. by rewrite (process_tar_other_paths _ _ _ _ _ Hrun Hne).
Qed.

End ArchiveFacts.

(** ** The archives [main] works on *)

Lemma filter_none {A} (f : A -> bool) (l : list A) :
  Forall (fun x => f x = false) l -> List.filter f l = [].
Proof. induction 1 as [|x l Hx _ IH]; [done|]. cbn. by rewrite Hx. Qed.

Lemma elem_of_filter_bool {A} (f : A -> bool) (l : list A) (x : A) :
  x ∈ List.filter f l <-> x ∈ l /\ f x = true.
Proof. rewrite !list_elem_of_In. apply List.filter_In. Qed.

Lemma tar_files_end_in_tar (fs : filesystem) (path p : string) :
  p ∈ tar_files fs path -> Py.endswith p ".tar" = true.
Proof.
  unfold tar_files. rewrite merge_sort_Permutation, list_elem_of_fmap.
  intros (f & -> & [_ Htar]%elem_of_filter_bool).
  apply endswith_inv in Htar as [stem ->].
  rewrite <- !append_assoc. apply endswith_append.
Qed.

(** ** The pool and [main] *)

Section PoolFacts.
Context (E : externals) (completion : list string -> list string).

Lemma run_pool_other_paths
    (fs fs' : filesystem) (tasks : list string) (path : string)
    (r : result (list (list string))) :
  run_pool E fs tasks = (fs', r) ->
  (forall t, t ∈ tasks -> path <> doc_path t) ->
  fs' !! path = fs !! path.
Proof.
  revert fs fs' r.
  induction tasks as [|t tasks IH]; intros fs fs' r; cbn [run_pool].
  - by intros [= <- _].
  - intros Hrun Hpath.
    destruct (process_tar E fs t) as [fs1 r1] eqn:Htar.
    assert (fs1 !! path = fs !! path) as <-.
    { apply (process_tar_other_paths E _ _ _ _ _ Htar), Hpath. by left. }
    destruct r1 as [ls|e]; [|by injection Hrun as <- _].
    destruct (run_pool E fs1 tasks) as [fs2 r2] eqn:Hpool.
    assert (fs2 !! path = fs1 !! path) as <-.
    { apply (IH fs1 fs2 r2 Hpool). intros t' Ht'. apply Hpath. by right. }
    by destruct r2; injection Hrun as <- _.
Qed.

(** X23: a directory in which no name, of a file or of a directory, ends in
    [.tar]: [main] fails its assertion before anything is read or
    written. *)
Lemma main_no_archives
    (fs : filesystem) (path : string) (out_file : option string) :
  isdir fs path = true ->
  Forall (fun f => Py.endswith f ".tar" = false) (listdir fs path) ->
  main E completion fs path out_file = (fs, Raise AssertionError).
Proof.
  intros Hdir Hnone. unfold main, tar_files.
  by rewrite Hdir, (filter_none _ _ Hnone).
Qed.

(** X24: [main] changes no file whose name ends in [.tar], the manifest itself
    apart if it was given such a name: the side files and the default
    manifest have other names, so the archives are left as they were.
    The pool is taken to hand back only tasks it was given. *)
Lemma main_keeps_tar_files
    (fs fs' : filesystem) (path : string) (out_file : option string)
    (r : result unit) (p : string) :
  (forall tasks t, t ∈ completion tasks -> t ∈ tasks) ->
  main E completion fs path out_file = (fs', r) ->
  Py.endswith p ".tar" = true ->
  p <> str_or out_file (path +:+ ".json") ->
  fs' !! p = fs !! p.
Proof.
  intros Hcompletion Hmain Hp Hout.
  assert (forall fs1 r1,
             run_pool E fs (completion (tar_files fs path)) = (fs1, r1) ->
             fs1 !! p = fs !! p) as Hpool.
  { intros fs1 r1 Hrun. apply (run_pool_other_paths _ _ _ _ _ Hrun).
    intros t Ht%Hcompletion%tar_files_end_in_tar ->.
    apply doc_path_not_tar in Ht. congruence. }
  revert Hmain. unfold main.
  destruct (isdir fs path); [|by intros [= <- _]].
  destruct (0 <? length (tar_files fs path))%nat; [|by intros [= <- _]].
  destruct (run_pool E fs (completion (tar_files fs path)))
    as [fs1 [results|e]] eqn:Hrun.
  - destruct (writable fs1 _).
    + destruct (write_manifest results); intros [= <- _];
        rewrite lookup_insert_ne by done; by apply (Hpool _ _ eq_refl).
    + intros [= <- _]. by apply (Hpool _ _ eq_refl).
  - intros [= <- _]. by apply (Hpool _ _ eq_refl).
Qed.

Lemma run_pool_markers
    (fs fs' : filesystem) (tasks : list string) (results : list (list string)) :
  run_pool E fs tasks = (fs', Ok results) ->
  (forall path, isfile fs path = true -> isfile fs' path = true) /\
  (forall t, t ∈ tasks -> isfile fs' (doc_path t) = true).
Proof.
  revert fs results. induction tasks as [|t tasks IH]; intros fs results;
    cbn [run_pool].
  - intros [= <- _]. split; [done|]. by intros t Ht%elem_of_nil.
  - destruct (process_tar E fs t) as [fs1 [ls|e]] eqn:Htar; [|done].
    destruct (run_pool E fs1 tasks) as [fs2 [rs|e]] eqn:Hpool; [|done].
    intros [= <- _]. destruct (IH _ _ Hpool) as [Hmono Hmarks]. split.
    + intros path Hpath. apply Hmono.
      by apply (process_tar_isfile_mono E _ _ _ _ _ Htar).
    + intros t' [->|Ht']%elem_of_cons; [|by apply Hmarks].
      apply Hmono. by apply (process_tar_marker E _ _ _ _ Htar).
Qed.

End PoolFacts.

Lemma run_pool_all_marked
    (E : externals) (fs : filesystem) (tasks : list string) :
  (forall t, t ∈ tasks -> isfile fs (doc_path t) = true) ->
  run_pool E fs tasks = (fs, Ok (map (fun _ => []) tasks)).
Proof.
  induction tasks as [|t tasks IH]; intros Hmarks; [reflexivity|].
  cbn [run_pool map]. unfold process_tar at 1.
  rewrite Hmarks by by left.
  rewrite IH; [done|]. intros t' Ht'. apply Hmarks. by right.
Qed.

(** X25: a second pass over archives that a first pass processed yields no
    record, whatever the archives hold by then, and the manifest written
    from it is a line feed and a closing bracket: the records of the first
    pass are in the side files only. *)
Lemma pool_rerun_yields_nothing
    (E E' : externals) (fs fs1 : filesystem) (tasks : list string)
    (results : list (list string)) :
  run_pool E fs tasks = (fs1, Ok results) ->
  exists f,
    run_pool E' fs1 tasks = (fs1, Ok (map (fun _ => []) tasks)) /\
    write_manifest (map (fun _ => []) tasks) = Ok f /\
    as_text (written f) = LF +:+ "]".
Proof.
  intros Hrun. destruct (run_pool_markers E _ _ _ _ Hrun) as [_ Hmarks].
  exists (File [x0a; x5d] 2). split; [by apply run_pool_all_marked|].
  unfold write_manifest, manifest_body.
  rewrite manifest_loop_empty; [done|].
  clear. induction tasks as [|t tasks IH]; [done|]. by cbn.
Qed.

(** ** The pairing key *)

Lemma dotless_append (s t : string) :
  dotless (s +:+ t) = dotless s && dotless t.
Proof.
  induction s as [|c s IH]; [reflexivity|].
  rewrite append_cons. cbn [dotless]. by rewrite IH, andb_assoc.
Qed.

Lemma dotless_rev (s : string) : dotless (String.rev s) = dotless s.
Proof.
  induction s as [|c s IH]; [reflexivity|].
  change (String c s) with (String c "" +:+ s) at 1.
  rewrite rev_append_distr, dotless_append, IH. cbn [dotless String.rev_app String.rev].
  by rewrite andb_true_r, andb_comm.
Qed.

Lemma lower_append (s t : string) :
  Py.lower (s +:+ t) = Py.lower s +:+ Py.lower t.
Proof.
  induction s as [|c s IH]; [reflexivity|].
  rewrite append_cons. cbn [Py.lower]. by rewrite IH.
Qed.

Lemma lower_char_dot (c : ascii) :
  bool_decide (Py.lower_char c = "."%char) = bool_decide (c = "."%char).
Proof. by destruct c as [[] [] [] [] [] [] [] []]. Qed.

Lemma dotless_lower (s : string) : dotless (Py.lower s) = dotless s.
Proof.
  induction s as [|c s IH]; [reflexivity|].
  cbn [Py.lower dotless]. by rewrite lower_char_dot, IH.
Qed.

Lemma after_dot_dotless (s : string) :
  dotless s = true -> Py.after_dot s = None.
Proof.
  induction s as [|c s IH]; [done|]. cbn [dotless Py.after_dot].
  intros [Hc Hs]%andb_true_iff. apply negb_true_iff, bool_decide_eq_false in Hc.
  by rewrite decide_False, IH.
Qed.

Lemma after_dot_append (s t : string) :
  dotless s = true -> Py.after_dot (s +:+ "." +:+ t) = Some t.
Proof.
  induction s as [|c s IH].
  - intros _. by rewrite append_nil_l.
  - cbn [dotless]. intros [Hc Hs]%andb_true_iff.
    apply negb_true_iff, bool_decide_eq_false in Hc.
    rewrite append_cons. cbn [Py.after_dot]. by rewrite decide_False, IH.
Qed.

Lemma rsplit2_head_no_dot (s : string) :
  dotless s = true -> Py.rsplit2_head s = s.
Proof.
  intros Hs. unfold Py.rsplit2_head.
  by rewrite after_dot_dotless by by rewrite dotless_rev.
Qed.

Lemma rsplit2_head_one_dot (a b : string) :
  dotless a = true -> dotless b = true ->
  Py.rsplit2_head (a +:+ "." +:+ b) = a.
Proof.
  intros Ha Hb. unfold Py.rsplit2_head.
  rewrite !rev_append_distr, append_assoc.
  change (String.rev ".") with ".".
  rewrite after_dot_append by by rewrite dotless_rev.
  rewrite after_dot_dotless by by rewrite dotless_rev.
  apply rev_involutive.
Qed.

Lemma rsplit2_head_two_dots (a b c : string) :
  dotless b = true -> dotless c = true ->
  Py.rsplit2_head (a +:+ "." +:+ b +:+ "." +:+ c) = a.
Proof.
  intros Hb Hc. unfold Py.rsplit2_head.
  rewrite !rev_append_distr, !append_assoc.
  change (String.rev ".") with ".".
  rewrite after_dot_append by by rewrite dotless_rev.
  rewrite after_dot_append by by rewrite dotless_rev.
  apply rev_involutive.
Qed.

(** X21: the key under which an entry is paired, read off its name: the whole
    name when it has no dot, what precedes the dot when it has one, and
    what precedes the last dot but one when it has more, lower-cased in
    each case.  So [img.jpg] and [img.json] share a key, and so do
    [img.1.jpg] and [img.2.jpg]. *)
Lemma pairing_key_of_name
    (stem seg ext : string) (t : Z) (data : Py.bytes) :
  dotless seg = true -> dotless ext = true ->
  pairing_key (Member ext t data) = Py.lower ext /\
  pairing_key (Member (seg +:+ "." +:+ ext) t data) = Py.lower seg /\
  pairing_key (Member (stem +:+ "." +:+ seg +:+ "." +:+ ext) t data)
  = Py.lower stem.
Proof.
  intros Hseg Hext. unfold pairing_key. cbn [name].
  rewrite !lower_append. change (Py.lower ".") with ".".
  split; [|split].
  - apply rsplit2_head_no_dot. by rewrite dotless_lower.
  - apply rsplit2_head_one_dot; by rewrite dotless_lower.
  - apply rsplit2_head_two_dots; by rewrite dotless_lower.
Qed.

(** ** The further properties at work *)

Lemma process_image_record_witness :
  exists cmi,
    get_copyright Fixture.world (Image None (Ok ∅) []) = Ok cmi /\
    map fst Fixture.sunset_record =
      RECORD_KEYS ++ match cmi with Some _ => ["copyright"] | None => [] end /\
    record_get Fixture.sunset_record "bytes"
      = Some (JInt (Z.of_nat (length Fixture.sunset_jpg))) /\
    record_get Fixture.sunset_record "mime-type" = Some (JStr "image/jpeg") /\
    record_get Fixture.sunset_record "checksum"
      = Some (JStr (iscc_instance_id Fixture.world Fixture.sunset_jpg).2) /\
    record_get Fixture.sunset_record "copyright" = JStr <$> cmi.
Proof.
  apply (process_image_record Fixture.world Fixture.sunset_jpg "Sunset"
           "https://example.com/a.jpg" (Some 1690000000)
           (Image None (Ok ∅) []) "image/jpeg"); reflexivity.
Defined.

Lemma process_image_title_independence_witness :
  exists doc2 tail,
    process_image Fixture.world Fixture.sunset_jpg "Dawn"
      "https://example.com/a.jpg" (Some 1690000000) = Ok doc2 /\
    (forall key, key <> "iscc" -> key <> "timestamp" ->
                 record_get doc2 key = record_get Fixture.sunset_record key) /\
    (forall t, Some 1690000000 = Some t -> t <> 0 ->
               record_get Fixture.sunset_record "timestamp" = Some (JInt t) /\
               record_get doc2 "timestamp" = Some (JInt t)) /\
    record_get Fixture.sunset_record "iscc" =
      Some (JStr ((iscc_meta_id Fixture.world "Sunset" "").1.1 +:+ "-" +:+ tail)) /\
    record_get doc2 "iscc" =
      Some (JStr ((iscc_meta_id Fixture.world "Dawn" "").1.1 +:+ "-" +:+ tail)).
Proof.
  apply (process_image_title_independence Fixture.world Fixture.sunset_jpg
           "Sunset" "Dawn" "https://example.com/a.jpg" (Some 1690000000)
           (Image None (Ok ∅) []) "image/jpeg"); [reflexivity | done | reflexivity].
Defined.

Lemma process_image_empty_iff_undecodable_witness :
  @nil (string * jvalue) = [] <-> undecodable Fixture.world Fixture.not_an_image.
Proof.
  apply (process_image_empty_iff_undecodable Fixture.world Fixture.not_an_image
           "Sunset" "https://example.com/a.jpg" None).
  reflexivity.
Defined.

Lemma process_image_undetected_format_raises_witness :
  process_image Edge.world Edge.formatless "Sunset"
    "https://example.com/a.jpg" None = Raise TypeError.
Proof.
  apply (process_image_undetected_format_raises Edge.world Edge.formatless
           "Sunset" "https://example.com/a.jpg" None (Image None (Ok ∅) []));
    reflexivity.
Defined.

Lemma process_image_malformed_exif_witness :
  exists doc,
    process_image Edge.world Edge.scratched_jpg "Sunset"
      "https://example.com/a.jpg" (Some 1690000000) = Ok doc /\
    map fst doc = RECORD_KEYS /\
    record_get doc "copyright" = None.
Proof.
  apply (process_image_malformed_exif Edge.world Edge.scratched_jpg "Sunset"
           "https://example.com/a.jpg" (Some 1690000000)
           (Image None (Raise SyntaxError) []) "image/jpeg" "example.com");
    [reflexivity | done | reflexivity | reflexivity].
Defined.

Lemma get_copyright_accepted_value_witness :
  exists tags tag raw,
    getexif (Fixture.tagged {[ ARTIST_TAG := " Jo " ]}) = Ok tags /\
    (tag = COPYRIGHT_TAG \/ tag = ARTIST_TAG) /\
    tags !! tag = Some raw /\
    "Jo" = fix_text Fixture.world (Py.strip raw) /\
    (2 <= String.length (Py.strip raw))%nat /\
    Py.contains "[None]" (Py.strip raw) = false.
Proof.
  apply (get_copyright_accepted_value Fixture.world
           (Fixture.tagged {[ ARTIST_TAG := " Jo " ]}) "Jo").
  reflexivity.
Defined.

Lemma process_tar_frame_witness :
  (forall path, path <> doc_path "/d/0.tar" ->
     (process_tar Fixture.world Fixture.payload_first "/d/0.tar").1 !! path
     = Fixture.payload_first !! path) /\
  (forall e, Ok [Json.dumps Fixture.sunset_record] = Raise e ->
     (process_tar Fixture.world Fixture.payload_first "/d/0.tar").1
     = Fixture.payload_first) /\
  (forall ls, Ok [Json.dumps Fixture.sunset_record] = Ok ls ->
     isfile Fixture.payload_first (doc_path "/d/0.tar") = false ->
     (process_tar Fixture.world Fixture.payload_first "/d/0.tar").1
       !! doc_path "/d/0.tar" = Some (jsonl ls)).
Proof.
  apply (process_tar_frame Fixture.world Fixture.payload_first
           (process_tar Fixture.world Fixture.payload_first "/d/0.tar").1
           "/d/0.tar" (Ok [Json.dumps Fixture.sunset_record])).
  vm_compute. reflexivity.
Defined.

Lemma process_tar_without_sidecars_witness :
  process_tar Edge.world Edge.only_payloads "/d/6.tar"
  = (<[doc_path "/d/6.tar" := []]> Edge.only_payloads, Ok []).
Proof.
  apply (process_tar_without_sidecars Edge.world Edge.only_payloads "/d/6.tar"
           [x06] [Fixture.payload; Edge.readme; Fixture.broken_payload]);
    [reflexivity | reflexivity | reflexivity | | reflexivity].
  repeat constructor.
Defined.

Lemma scan_lines_bound_witness :
  exists new,
    lines (ScanState ∅ [Json.dumps Fixture.sunset_record]) = [] ++ new /\
    (length new <=
     length (List.filter is_sidecar [Fixture.payload; Fixture.sidecar]))%nat.
Proof.
  apply (scan_lines_bound Fixture.world (ScanState ∅ [])
           (ScanState ∅ [Json.dumps Fixture.sunset_record])
           [Fixture.payload; Fixture.sidecar]).
  reflexivity.
Defined.

Lemma process_tar_unwritable_witness :
  process_tar Fixture.world Edge.nested "/data/cc3m.tar.d/00000.tar"
  = (Edge.nested, Raise OSError).
Proof.
  apply (process_tar_unwritable Fixture.world Edge.nested
           "/data/cc3m.tar.d/00000.tar" [x01]
           [Fixture.payload; Fixture.sidecar]
           (ScanState ∅ [Json.dumps Fixture.sunset_record]));
    reflexivity.
Defined.

Lemma process_tar_name_without_tar_witness :
  process_tar Fixture.world Edge.no_archive "/d/notes.txt"
  = (Edge.no_archive, Ok []).
Proof.
  apply (process_tar_name_without_tar Fixture.world Edge.no_archive
           "/d/notes.txt"); reflexivity.
Defined.

Lemma process_tar_keeps_archive_witness :
  (process_tar Fixture.world Fixture.payload_first "/d/0.tar").1 !! "/d/0.tar"
  = Fixture.payload_first !! "/d/0.tar".
Proof.
  apply (process_tar_keeps_archive Fixture.world Fixture.payload_first
           (process_tar Fixture.world Fixture.payload_first "/d/0.tar").1
           "/d/0.tar" (Ok [Json.dumps Fixture.sunset_record])).
  - reflexivity.
  - vm_compute. reflexivity.
Defined.

Lemma main_no_archives_witness :
  main Fixture.world (fun tasks => tasks) Edge.no_archive "/d" None
  = (Edge.no_archive, Raise AssertionError).
Proof.
  apply (main_no_archives Fixture.world (fun tasks => tasks) Edge.no_archive
           "/d" None); [reflexivity|].
  vm_compute. repeat constructor.
Defined.

Lemma main_keeps_tar_files_witness :
  (main Fixture.world (fun tasks => tasks) Fixture.corpus "/d" None).1
    !! "/d/0.tar"
  = Fixture.corpus !! "/d/0.tar".
Proof.
  apply (main_keeps_tar_files Fixture.world (fun tasks => tasks) Fixture.corpus
           (main Fixture.world (fun tasks => tasks) Fixture.corpus "/d" None).1
           "/d" None (Ok tt) "/d/0.tar").
  - done.
  - vm_compute. reflexivity.
  - reflexivity.
  - done.
Defined.

Lemma pool_rerun_yields_nothing_witness :
  exists f,
    run_pool Edge.world
      (run_pool Fixture.world Fixture.corpus (tar_files Fixture.corpus "/d")).1
      (tar_files Fixture.corpus "/d")
    = ((run_pool Fixture.world Fixture.corpus (tar_files Fixture.corpus "/d")).1,
       Ok (map (fun _ => []) (tar_files Fixture.corpus "/d"))) /\
    write_manifest (map (fun _ => []) (tar_files Fixture.corpus "/d")) = Ok f /\
    as_text (written f) = LF +:+ "]".
Proof.
  apply (pool_rerun_yields_nothing Fixture.world Edge.world Fixture.corpus
           (run_pool Fixture.world Fixture.corpus (tar_files Fixture.corpus "/d")).1
           (tar_files Fixture.corpus "/d")
           [[Json.dumps Fixture.sunset_record]; [];
            [Json.dumps Fixture.sunset_record]]).
  vm_compute. reflexivity.
Defined.

Lemma pairing_key_of_name_witness :
  pairing_key (Member "JPG" 0 []) = Py.lower "JPG" /\
  pairing_key (Member ("0001" +:+ "." +:+ "JPG") 0 []) = Py.lower "0001" /\
  pairing_key (Member ("IMG" +:+ "." +:+ "0001" +:+ "." +:+ "JPG") 0 [])
  = Py.lower "IMG".
Proof.
  apply (pairing_key_of_name "IMG" "0001" "JPG" 0 []); reflexivity.
Defined.

(** ** An archive of pairs *)

Section PairedArchive.
Context (E : externals).

Lemma scan_paired_archive
    (pairs : list (member * member * document)) (ls : list string) :
  Forall (well_paired E) pairs ->
  scan E (ScanState ∅ ls) (concat (map pair_entries pairs)) =
  Ok (ScanState ∅ (ls ++ concat (map (fun t => record_lines t.2) pairs))).
Proof.
  intros Hpairs. revert ls.
  induction Hpairs as [|[[pay side] doc] pairs Hpair _ IH]; intros ls.
  - cbn. by rewrite app_nil_r.
  - destruct Hpair as (Hp & Hs & Hk & meta & url & Hmeta & Hurl & Hdoc).
    cbn [fst snd] in *. cbn [map concat pair_entries fst snd app scan].
    rewrite scan_member_payload, bind_Ok by done.
    rewrite scan_member_sidecar by done.
    rewrite (scan_sidecar_paired E _ side (content pay) meta url doc);
      cbn [cache lines]; try done; [|by rewrite Hk, lookup_insert_eq].
    rewrite bind_Ok, Hk, delete_insert_eq, delete_empty.
    by rewrite IH, app_assoc.
Qed.

(** X18: an archive made of payloads each followed by its sidecar yields the
    records of the pairs in the order of the archive, one line for each
    pair whose payload decodes and none for the others, and the same lines
    go to the side file, when the side file can be written where its path
    says. *)
Lemma process_tar_paired_archive
    (fs : filesystem) (filename : string) (archive : Py.bytes)
    (pairs : list (member * member * document)) :
  isfile fs (doc_path filename) = false ->
  fs !! filename = Some archive ->
  getmembers E archive = Ok (concat (map pair_entries pairs)) ->
  Forall (well_paired E) pairs ->
  writable fs (doc_path filename) = true ->
  process_tar E fs filename =
  (<[doc_path filename :=
       jsonl (concat (map (fun t => record_lines t.2) pairs))]> fs,
   Ok (concat (map (fun t => record_lines t.2) pairs))).
Proof.
  intros Hdoc Hfile Hms Hpairs Hw.
  by rewrite (process_tar_scanned E fs filename archive _ _ Hdoc Hfile Hms
                (scan_paired_archive pairs [] Hpairs) Hw).
Qed.

(** X17: a sidecar without a caption is fatal for its archive when its payload
    decodes: the title defaults to the empty string, on which
    [process_image] raises [ValueError]; nothing is written. *)
Lemma process_tar_missing_caption
    (fs : filesystem) (filename : string) (archive : Py.bytes)
    (pre : list member) (side : member) (post : list member)
    (st : scan_state) (data : Py.bytes) (meta : gmap string string)
    (url : string) (img : image) (mime_type : string) :
  isfile fs (doc_path filename) = false ->
  fs !! filename = Some archive ->
  getmembers E archive = Ok (pre ++ side :: post) ->
  scan E (ScanState ∅ []) pre = Ok st ->
  is_sidecar side = true ->
  cache st !! pairing_key side = Some data ->
  json_load E (content side) = Ok meta ->
  meta !! "caption" = None ->
  meta !! "url" = Some url ->
  decode E data = Ok (img, mime_type) ->
  process_tar E fs filename = (fs, Raise ValueError).
Proof.
  intros Hdoc Hfile Hms Hpre Hs Hc Hmeta Hcaption Hurl Hdec.
  rewrite (process_tar_fresh E fs filename archive _ Hdoc Hfile Hms).
  rewrite scan_app, Hpre, bind_Ok. cbn [scan].
  rewrite scan_member_sidecar by done.
  unfold scan_sidecar, dict_item, dict_get.
  rewrite Hc, Hmeta, bind_Ok, Hurl, bind_Ok, Hcaption. cbn [default].
  unfold process_image. by rewrite Hdec.
Qed.

End PairedArchive.

(** X26: the closing step of the manifest never fails and never changes the
    length of the file: the opening line is there for the [seek] to go back
    over, and the two bytes written take the place of the two bytes left
    behind. *)
Lemma write_manifest_never_raises (results : list (list string)) :
  exists f,
    write_manifest results = Ok f /\
    length (written f) = length (written (manifest_body results)) /\
    position f = length (written f).
Proof.
  unfold write_manifest. rewrite manifest_body_written.
  set (body := encode ("[" +:+ LF) ++ concat (map manifest_line (concat results))).
  assert (2 <= length body)%nat as Hlen
    by (subst body; change (encode ("[" +:+ LF)) with [x5b; x0a];
        rewrite length_app; cbn [length]; lia).
  change (encode (LF +:+ "]")) with [x0a; x5d].
  rewrite seek_write_end by done.
  eexists. split; [reflexivity|]. cbn [written position].
  rewrite length_app, length_take. cbn [length]. lia.
Qed.

Lemma process_tar_paired_archive_witness :
  process_tar Fixture.world Fixture.payload_first "/d/0.tar" =
  (<[doc_path "/d/0.tar" := jsonl [Json.dumps Fixture.sunset_record]]>
     Fixture.payload_first,
   Ok [Json.dumps Fixture.sunset_record]).
Proof.
  apply (process_tar_paired_archive Fixture.world Fixture.payload_first
           "/d/0.tar" [x01]
           [(Fixture.payload, Fixture.sidecar, Fixture.sunset_record)]);
    [reflexivity | reflexivity | reflexivity | | reflexivity].
  repeat constructor.
  exists (<["url" := "https://example.com/a.jpg"]> (<["caption" := "Sunset"]> ∅)),
    "https://example.com/a.jpg".
  repeat split.
Defined.

Lemma process_tar_missing_caption_witness :
  process_tar Edge.world Edge.without_caption "/d/8.tar"
  = (Edge.without_caption, Raise ValueError).
Proof.
  apply (process_tar_missing_caption Edge.world Edge.without_caption "/d/8.tar"
           [x08] [Fixture.payload] Edge.untitled_sidecar []
           (ScanState {[ "0001" := Fixture.sunset_jpg ]} [])
           Fixture.sunset_jpg (<["url" := "https://example.com/b.jpg"]> ∅)
           "https://example.com/b.jpg" (Image None (Ok ∅) []) "image/jpeg");
    reflexivity.
Defined.
